(** * Framingham CHD risk dashboard: data preparation and aggregation

    A shallow embedding of [IndividualProject_ChristelleKhoury.py]: the
    loader's two derived columns, the gender/age filter, the per-category
    CHD rates, the fixed category orders and the smoking-intensity bands.

    A data frame is the list of its rows.  Numeric cells are exact
    rationals ([Q]), a missing cell (pandas' NaN) is [None].  The pandas
    operations the script calls are modelled in [Module Pandas]; the script
    itself is [Module App]. *)

From Stdlib Require Import List String Bool ZArith QArith Lia Lqa.
From Stdlib Require Import Sorted Permutation.
From Stdlib Require OrderedTypeEx.
Import ListNotations.

Local Open Scope string_scope.
Local Open Scope Z_scope.

(* ================================================================== *)
(** ** The pandas operations used by the script *)
(* ================================================================== *)

Module Pandas.

(** Equality of two cells holding an optional label; as in pandas'
    [isin], a missing cell matches a missing entry of the list. *)
Definition label_eqb (a b : option string) : bool :=
  match a, b with
  | Some x, Some y => String.eqb x y
  | None, None => true
  | _, _ => false
  end.

(** [Series.isin(values)] *)
Definition isin (x : option string) (values : list (option string)) : bool :=
  existsb (label_eqb x) values.

(** [Series.between(left, right)], inclusive on both sides. *)
Definition between (x left right : Z) : bool :=
  (left <=? x) && (x <=? right).

(** Stable insertion sort under a boolean order. *)
Section Sorting.
Context {A : Type} (leb : A -> A -> bool).

Fixpoint insert_sorted (x : A) (l : list A) : list A :=
    match l with
    | [] => [x]
    | y :: l' => if leb x y then x :: l else y :: insert_sorted x l'
    end.

Fixpoint sort_with (l : list A) : list A :=
    match l with
    | [] => []
    | x :: l' => insert_sorted x (sort_with l')
    end.
End Sorting.

(** [Series.mean()] of an integer column: NaN on an empty one. *)
Definition total (xs : list Z) : Z := fold_right Z.add 0 xs.

Definition mean (xs : list Z) : option Q :=
  match xs with
  | [] => None
  | _ => Some (inject_Z (total xs) / inject_Z (Z.of_nat (List.length xs)))%Q
  end.

(** One row of [groupby(key)[col].mean().reset_index()] after the
    script has added its percent column. *)
Record AggRow (K : Type) : Type := mkAgg {
  category : K;
  TenYearCHD_mean : option Q;
  CHD_Risk_pct : option Q
}.
Arguments mkAgg {K}.
Arguments category {K}.
Arguments TenYearCHD_mean {K}.
Arguments CHD_Risk_pct {K}.

(** [col * 100] on a column that may hold NaN. *)
Definition times100 (m : option Q) : option Q :=
  option_map (fun q => (q * 100)%Q) m.

Section GroupBy.
Context {R : Type} (key : R -> option string) (value : R -> Z).

  (** The rows of one group. *)
Definition group_rows (k : string) (rows : list R) : list R :=
    filter (fun r => label_eqb (key r) (Some k)) rows.

  (** The group keys: rows with a missing key are dropped
      ([dropna=True]), every key is listed once. *)
Fixpoint present_keys (rows : list R) : list string :=
    match rows with
    | [] => []
    | r :: rows' =>
        match key r with
        | Some k => k :: present_keys rows'
        | None => present_keys rows'
        end
    end.

Definition unique_keys (rows : list R) : list string :=
    nodup string_dec (present_keys rows).

Definition agg_row (rows : list R) (k : string) : AggRow string :=
    let m := mean (map value (group_rows k rows)) in
    mkAgg k m (times100 m).

  (** [groupby] on a column of strings: one row per key that occurs,
      keys in ascending string order ([sort=True]). *)
Definition groupby_mean (rows : list R) : list (AggRow string) :=
    map (agg_row rows) (sort_with String.leb (unique_keys rows)).

  (** [groupby] on a categorical column.  The rows follow the order of
      the categories.  With [observed = false] (the default of pandas
      before 3.0) every category is listed and an empty one has mean NaN;
      with [observed = true] (the default from 3.0 on) only the categories
      that occur are listed. *)
Definition groupby_categorical_mean (observed : bool)
    (categories : list string) (rows : list R) : list (AggRow string) :=
  let occurs k := match group_rows k rows with [] => false | _ => true end in
  map (agg_row rows)
      (if observed then filter occurs categories else categories).
End GroupBy.

(** [pd.cut(x, bins, labels, right=False)]: the i-th label for a value
    in the left-closed, right-open interval [bins[i], bins[i+1]); NaN for
    a value in none of them and for a missing value. *)
Fixpoint cut_right_open (x : Q) (bins : list Q) (labels : list string)
  : option string :=
  match bins, labels with
  | lo :: ((hi :: _) as rest), l :: ls =>
      if Qle_bool lo x && negb (Qle_bool hi x) then Some l
      else cut_right_open x rest ls
  | _, _ => None
  end.

Definition cut (x : option Q) (bins : list Q) (labels : list string)
  : option string :=
  match x with
  | Some q => cut_right_open q bins labels
  | None => None
  end.

(** The code of a label in [pd.Categorical(values, categories)]: its
    position among the categories; [None] is pandas' code -1. *)
Fixpoint code (categories : list string) (v : string) : option nat :=
  match categories with
  | [] => None
  | c :: cs =>
      if String.eqb v c then Some O
      else option_map S (code cs v)
  end.

Definition rank (categories : list string) (v : string) : nat :=
  match code categories v with
  | Some i => i
  | None => List.length categories
  end.

Definition known (categories : list string) (v : string) : bool :=
  match code categories v with Some _ => true | None => false end.

(** The label column after [pd.Categorical(col, categories, ordered=True)]:
    a value that is no category becomes NaN. *)
Definition as_categorical (categories : list string) (a : AggRow string)
  : AggRow (option string) :=
  mkAgg (if known categories (category a) then Some (category a) else None)
        (TenYearCHD_mean a) (CHD_Risk_pct a).

(** [sort_values] on an ordered categorical column: the rows with a
    category in ascending code, then the NaN rows in their own order
    ([na_position='last']). *)
Definition sort_values_categorical (categories : list string)
    (agg : list (AggRow string)) : list (AggRow (option string)) :=
  let has := filter (fun a => known categories (category a)) agg in
  let nan := filter (fun a => negb (known categories (category a))) agg in
  map (as_categorical categories)
      (sort_with (fun a b => Nat.leb (rank categories (category a))
                                     (rank categories (category b))) has
       ++ nan).

(** Order of two cells of a numeric column for a descending sort, NaN
    last. *)
Definition geb_nan_last (a b : option Q) : bool :=
  match a, b with
  | Some x, Some y => Qle_bool y x
  | Some _, None => true
  | None, Some _ => false
  | None, None => true
  end.

(** [sort_values(col, ascending=False)] on the percent column. *)
Definition sort_values_desc {K} (agg : list (AggRow K)) : list (AggRow K) :=
  sort_with (fun a b => geb_nan_last (CHD_Risk_pct a) (CHD_Risk_pct b)) agg.

End Pandas.

(* ================================================================== *)
(** ** The script *)
(* ================================================================== *)

Module App.
Import Pandas.

(** One line of the CSV file. *)
Record Subject : Type := mkSubject {
  gender : option string;
  age : Z;
  currentSmoker : Z;
  cigsPerDay : option Q;
  education : option Q;
  BMI : option Q;
  totChol : option Q;
  BP_Category : option string;
  TenYearCHD : Z
}.

(** A row of [data]: the CSV columns and the two columns [load_data]
    adds. *)
Record Row : Type := mkRow {
  subject :> Subject;
  Smoking_Status : string;
  Education_Level : option string
}.

(** *** Access gate *)

Record SessionState : Type := mkSession {
  password : option string;
  password_correct : option bool
}.

(** The [on_change] callback of the password box. *)
Definition password_entered (s : SessionState) : SessionState :=
  match password s with
  | Some p =>
      if String.eqb p "CHD2025"
      then mkSession None (Some true)
      else mkSession (Some p) (Some false)
  | None => s
  end.

Definition check_password (s : SessionState) : bool :=
  match password_correct s with
  | None => false
  | Some ok => ok
  end.

(** *** [load_data] *)

Definition smoking_status (x : Z) : string :=
  if x =? 1 then "Current Smoker" else "Non-Smoker".

Definition education_map : list (Q * string) :=
  [ (1%Q, "Some High School"); (2%Q, "High School/GED");
    (3%Q, "Some College"); (4%Q, "College") ].

(** [Series.map(dict)]: the value of the first key equal to the cell,
    NaN when there is none or the cell is missing. *)
Fixpoint map_dict (d : list (Q * string)) (x : Q) : option string :=
  match d with
  | [] => None
  | (k, v) :: d' => if Qeq_bool x k then Some v else map_dict d' x
  end.

Definition education_level (e : option Q) : option string :=
  match e with
  | Some x => map_dict education_map x
  | None => None
  end.

Definition load_row (s : Subject) : Row :=
  mkRow s (smoking_status (currentSmoker s)) (education_level (education s)).

Definition load_data (csv : list Subject) : list Row := map load_row csv.

(** *** Filters *)

Definition filtered_data (data : list Row)
    (gender_options : list (option string)) (age_range : Z * Z) : list Row :=
  filter (fun r : Row => isin (gender r) gender_options
                   && between (age r) (fst age_range) (snd age_range)) data.

Definition risk_data (filtered : list Row) : list Row :=
  filter (fun r : Row => TenYearCHD r =? 1) filtered.

(** *** Rates by category *)

(** [groupby(col)['TenYearCHD'].mean().reset_index()] followed by the
    percent column. *)
Definition rate_by_category (key : Row -> option string)
    (filtered : list Row) : list (AggRow string) :=
  groupby_mean key (fun r : Row => TenYearCHD r) filtered.

Definition chd_rate_gender (filtered : list Row) : list (AggRow string) :=
  rate_by_category (fun r : Row => gender r) filtered.

Definition chd_rate_smoke (filtered : list Row) : list (AggRow string) :=
  rate_by_category (fun r : Row => Some (Smoking_Status r)) filtered.

(** Education: the color map follows the risk, the rows follow
    [edu_order]. *)
Definition CUSTOM_RED_PALETTE : list string :=
  ["#800020"; "#993333"; "#A64A4A"; "#BFBFBF"].

Definition edu_order : list string :=
  ["Some High School"; "High School/GED"; "Some College"; "College"].

Definition chd_rate_edu_grouped (filtered : list Row) : list (AggRow string) :=
  rate_by_category Education_Level filtered.

Definition sorted_by_risk (filtered : list Row) : list (AggRow string) :=
  sort_values_desc (chd_rate_edu_grouped filtered).

Definition color_map_edu (filtered : list Row) : list (string * string) :=
  combine (map category (sorted_by_risk filtered)) CUSTOM_RED_PALETTE.

Definition chd_rate_edu (filtered : list Row)
  : list (AggRow (option string)) :=
  sort_values_categorical edu_order (chd_rate_edu_grouped filtered).

(** Blood pressure. *)
Definition bp_order : list string :=
  ["Normal"; "Elevated"; "Hypertension Stage 1"; "Hypertension Stage 2"].

Definition chd_rate_bp_grouped (filtered : list Row) : list (AggRow string) :=
  rate_by_category (fun r : Row => BP_Category r) filtered.

Definition chd_rate_bp (filtered : list Row)
  : list (AggRow (option string)) :=
  sort_values_categorical bp_order (chd_rate_bp_grouped filtered).

(** *** Smoking intensity *)

Record SmokerRow : Type := mkSmoker {
  row :> Row;
  Smoking_Intensity : option string
}.

Definition bins : list Q := [0%Q; 9%Q; 19%Q; 70%Q].

Definition labels : list string :=
  ["Light (1-9)"; "Moderate (10-19)"; "Heavy (20+)"].

Definition smoking_intensity (cigs : option Q) : option string :=
  cut cigs bins labels.

Definition smokers_df (filtered : list Row) : list SmokerRow :=
  map (fun r : Row => mkSmoker r (smoking_intensity (cigsPerDay r)))
      (filter (fun r : Row => currentSmoker r =? 1) filtered).

Definition chd_rate_intensity (observed : bool) (filtered : list Row)
  : list (AggRow string) :=
  groupby_categorical_mean Smoking_Intensity (fun r : SmokerRow => TenYearCHD r)
    observed labels (smokers_df filtered).

(** *** Distributions *)

Definition bmi_group (chd : Z) (filtered : list Row) : list (option Q) :=
  map (fun r : Row => BMI r) (filter (fun r : Row => TenYearCHD r =? chd) filtered).

Definition chol_group (chd : Z) (filtered : list Row) : list (option Q) :=
  map (fun r : Row => totChol r) (filter (fun r : Row => TenYearCHD r =? chd) filtered).

(** *** One run of the script *)

Inductive RiskFactor : Type := Smoking | Body_Weight | Blood_Pressure.

(** The data handed to each figure. *)
Inductive Figure : Type :=
| fig_sex (bars : list (AggRow string))
| fig_age (ages : list Z)
| fig_edu (bars : list (AggRow (option string)))
          (colors : list (string * string))
| fig_smoke (bars : list (AggRow string))
| fig_intensity (bars : list (AggRow string))
| fig_bmi (no_chd chd : list (option Q))
| fig_chol (no_chd chd : list (option Q))
| fig_bp (bars : list (AggRow (option string))).

Record Aggregates : Type := mkAggregates {
  agg_gender : list (AggRow string);
  agg_age : list Z;
  agg_edu : list (AggRow (option string));
  agg_edu_colors : list (string * string);
  agg_smoke : list (AggRow string);
  agg_intensity : list (AggRow string);
  agg_bmi : list (option Q) * list (option Q);
  agg_chol : list (option Q) * list (option Q);
  agg_bp : list (AggRow (option string))
}.

Definition aggregate (observed : bool) (data : list Row)
    (gender_options : list (option string)) (age_range : Z * Z)
  : Aggregates :=
  let fd := filtered_data data gender_options age_range in
  mkAggregates
    (chd_rate_gender fd)
    (map (fun r : Row => age r) (risk_data fd))
    (chd_rate_edu fd)
    (color_map_edu fd)
    (chd_rate_smoke fd)
    (chd_rate_intensity observed fd)
    (bmi_group 0 fd, bmi_group 1 fd)
    (chol_group 0 fd, chol_group 1 fd)
    (chd_rate_bp fd).

Definition layout (a : Aggregates) (risk_factor : RiskFactor) : list Figure :=
  [ fig_sex (agg_gender a); fig_age (agg_age a);
    fig_edu (agg_edu a) (agg_edu_colors a) ]
  ++ match risk_factor with
     | Smoking => [ fig_smoke (agg_smoke a); fig_intensity (agg_intensity a) ]
     | Body_Weight =>
         [ fig_bmi (fst (agg_bmi a)) (snd (agg_bmi a));
           fig_chol (fst (agg_chol a)) (snd (agg_chol a)) ]
     | Blood_Pressure => [ fig_bp (agg_bp a) ]
     end.

(** A run of the script: nothing is computed unless the gate passes
    ([st.stop()]); the session state is read by the gate only. *)
Definition run (observed : bool) (s : SessionState) (data : list Row)
    (gender_options : list (option string)) (age_range : Z * Z)
    (risk_factor : RiskFactor) : option (Aggregates * list Figure) :=
  if check_password s
  then let a := aggregate observed data gender_options age_range in
       Some (a, layout a risk_factor)
  else None.

(** *** The password box and the sidebar defaults *)

(** The text the password box shows: the value stored under its key, the
    empty default while the key is absent. *)
Definition box_value (s : SessionState) : string :=
  match password s with
  | Some v => v
  | None => ""
  end.

(** [st.text_input("Password", key="password", on_change=password_entered)]:
    an entry [p] that differs from the text of the box is stored under the
    key and the callback runs; an entry that leaves the text as it was fires
    no callback. *)
Definition text_input_change (p : string) (s : SessionState) : SessionState :=
  if String.eqb p (box_value s) then s
  else password_entered (mkSession (Some p) (password_correct s)).

(** One entry in a session.  [check_password] draws the box in its two
    failing branches only: once the gate is open there is no box left to
    type in and the state stays as it is. *)
Definition session_step (s : SessionState) (p : string) : SessionState :=
  if check_password s then s else text_input_change p s.

Definition fresh_session : SessionState := mkSession None None.

Definition session_after (entries : list string) : SessionState :=
  fold_left session_step entries fresh_session.

(** [Series.unique()]: the values in the order of their first
    appearance, a missing value included. *)
Fixpoint unique (values : list (option string)) : list (option string) :=
  match values with
  | [] => []
  | v :: rest => v :: filter (fun w => negb (label_eqb v w)) (unique rest)
  end.

(** [int(Series.min())] and [int(Series.max())] of an integer column; the
    minimum of an empty column is NaN and [int] raises on it. *)
Definition column_min (xs : list Z) : option Z :=
  match xs with
  | [] => None
  | x :: rest => Some (fold_left Z.min rest x)
  end.

Definition column_max (xs : list Z) : option Z :=
  match xs with
  | [] => None
  | x :: rest => Some (fold_left Z.max rest x)
  end.

(** The default of the gender multiselect and of the age slider.
    [st.slider] raises unless [min_value] is below [max_value], so a table
    whose ages are all equal gets no slider, like a table without rows. *)
Definition default_gender_options (data : list Row) : list (option string) :=
  unique (map (fun r : Row => gender r) data).

Definition default_age_range (data : list Row) : option (Z * Z) :=
  match column_min (map (fun r : Row => age r) data),
        column_max (map (fun r : Row => age r) data) with
  | Some age_min, Some age_max =>
      if age_min <? age_max then Some (age_min, age_max) else None
  | _, _ => None
  end.

End App.

(* ================================================================== *)
(** ** Vocabulary of the properties *)
(* ================================================================== *)

Module Props.
Import Pandas App.

(** A column that holds 0 or 1 only; the outcome column of a table. *)
Definition binary_column {R} (value : R -> Z) (rows : list R) : Prop :=
  Forall (fun r => value r = 0 \/ value r = 1) rows.

Definition binary_outcome (rows : list Row) : Prop :=
  binary_column (fun r : Row => TenYearCHD r) rows.

(** A percent cell that holds a value between 0 and 100. *)
Definition percent_in_range {K} (a : AggRow K) : Prop :=
  exists v, CHD_Risk_pct a = Some v /\ (0 <= v)%Q /\ (v <= 100)%Q.

(** A percent cell that is missing or holds a value between 0 and 100. *)
Definition percent_in_range_or_nan {K} (a : AggRow K) : Prop :=
  forall v, CHD_Risk_pct a = Some v -> (0 <= v)%Q /\ (v <= 100)%Q.

(** Does some row carry the label [c] in column [key]? *)
Definition present (key : Row -> option string) (rows : list Row)
    (c : string) : bool :=
  existsb (fun r => label_eqb (key r) (Some c)) rows.

(** Number of rows of a group, and of its rows with the value 1. *)
Definition group_size {R} (key : R -> option string) (c : string)
    (rows : list R) : Z :=
  Z.of_nat (List.length (group_rows key c rows)).

Definition group_cases {R} (key : R -> option string) (value : R -> Z)
    (c : string) (rows : list R) : Z :=
  Z.of_nat (List.length
              (filter (fun r => value r =? 1) (group_rows key c rows))).

(** The rate of a group: its cases over its size, in percent. *)
Definition group_rate {R} (key : R -> option string) (value : R -> Z)
    (c : string) (rows : list R) : Q :=
  (inject_Z (group_cases key value c rows)
   / inject_Z (group_size key c rows) * 100)%Q.

(** A smoker whose [cigsPerDay] lies in [0, 70). *)
Definition banded_smoker (r : Row) : bool :=
  (currentSmoker r =? 1)
  && match cigsPerDay r with
     | Some q => Qle_bool 0 q && negb (Qle_bool 70 q)
     | None => false
     end.

(** Every aggregate of a run is empty. *)
Definition all_empty (a : Aggregates) : Prop :=
  agg_gender a = [] /\ agg_age a = [] /\ agg_edu a = [] /\
  agg_smoke a = [] /\ agg_intensity a = [] /\
  agg_bmi a = ([], []) /\ agg_chol a = ([], []) /\ agg_bp a = [].

(** The three bands, each with a missing rate. *)
Definition nan_bands : list (AggRow string) :=
  map (fun l => mkAgg l None None) labels.

(** Number of labels of an aggregate that are no category. *)
Definition unknown_labels (categories : list string)
    (agg : list (AggRow string)) : nat :=
  List.length (filter (fun a => negb (known categories (category a))) agg).

(** Sample subjects. *)
Definition subject_of (g : string) (a smoker : Z) (cigs : option Q)
    (edu : option Q) (bp : string) (chd : Z) : Subject :=
  mkSubject (Some g) a smoker cigs edu (Some (51 # 2)%Q) (Some 230%Q)
            (Some bp) chd.

Definition smoker_with (cigs : Q) : Row :=
  load_row (subject_of "Male" 50 1 (Some cigs) (Some 1%Q) "Normal" 0).

Definition with_education (e : option Q) : Subject :=
  subject_of "Male" 45 1 (Some 80%Q) e "Normal" 1.

Definition sample_csv : list Subject :=
  [ subject_of "Male" 40 1 (Some 5%Q) (Some 1%Q) "Normal" 1;
    subject_of "Female" 50 0 (Some 0%Q) (Some 4%Q) "Elevated" 0;
    subject_of "Male" 60 1 (Some 25%Q) None "Hypertension Stage 2" 0;
    subject_of "Male" 45 1 (Some 80%Q) (Some (5 # 2)%Q) "Normal" 1 ].

Definition both_genders : list (option string) :=
  [Some "Male"; Some "Female"].

(** Does a cell hold a value? *)
Definition has_value (cell : option Q) : bool :=
  match cell with Some _ => true | None => false end.

(** Does a row carry a label in column [key]? *)
Definition labelled {R} (key : R -> option string) (r : R) : bool :=
  match key r with Some _ => true | None => false end.

(** The rows of an aggregate that carry the label [c]. *)
Definition rows_labelled (c : string) (agg : list (AggRow string))
  : list (AggRow string) :=
  filter (fun a => String.eqb (category a) c) agg.

Definition ordered_rows_labelled (c : string)
    (agg : list (AggRow (option string))) : list (AggRow (option string)) :=
  filter (fun a => label_eqb (category a) (Some c)) agg.

(** The row of a group with [cases] rows of outcome 1 among [size] rows,
    under the label [label]. *)
Definition rate_row {K} (label : K) (cases size : Z) : AggRow K :=
  mkAgg label (Some (inject_Z cases / inject_Z size)%Q)
              (Some (inject_Z cases / inject_Z size * 100)%Q).

(** One such row when the group of [c] has a row, none otherwise. *)
Definition expected_rows {K} (label : K) (key : Row -> option string)
    (c : string) (fd : list Row) : list (AggRow K) :=
  if 0 <? group_size key c fd
  then [rate_row label (group_cases key (fun r : Row => TenYearCHD r) c fd)
                       (group_size key c fd)]
  else [].

(** An aggregate lists [label] with the percentage [rate]. *)
Definition lists_rate {K} (agg : list (AggRow K)) (label : K) (rate : Q)
  : Prop :=
  exists a v, In a agg /\ category a = label /\
              CHD_Risk_pct a = Some v /\ (v == rate)%Q.

(** Two tables: one with an outcome that is neither 0 nor 1, one with a
    blood-pressure label outside [bp_order]. *)
Definition odd_outcome_csv : list Subject :=
  [ subject_of "Male" 40 0 (Some 0%Q) (Some 1%Q) "Normal" 2;
    subject_of "Female" 60 0 (Some 0%Q) (Some 2%Q) "Elevated" 0 ].

Definition odd_label_csv : list Subject :=
  [ subject_of "Male" 40 0 (Some 0%Q) (Some 1%Q) "Prehypertension" 1;
    subject_of "Female" 60 0 (Some 0%Q) (Some 2%Q) "Normal" 0 ].

(** A row with [TenYearCHD = 1] that a selection keeps. *)
Definition selected_case (gender_options : list (option string))
    (age_range : Z * Z) (r : Row) : bool :=
  (TenYearCHD r =? 1)
  && existsb (label_eqb (gender r)) gender_options
  && (fst age_range <=? age r) && (age r <=? snd age_range).

(** The rows of [smokers_df] in one band. *)
Definition band_rows (l : string) (fd : list Row) : list SmokerRow :=
  group_rows Smoking_Intensity l (smokers_df fd).

End Props.

(* ================================================================== *)
(** ** The script as it runs: objects, in-place assignments, reruns *)
(* ================================================================== *)

Module Script.
Import Pandas App.

(** The data frames of a run are objects held by reference.  A column
    assignment [df[col] = ...] changes the object in place; indexing with a
    mask, [copy], [groupby(...).mean().reset_index()] and [sort_values]
    make a new object. *)
Inductive Frame : Type :=
| Table (rows : list Row)
| Smokers (rows : list SmokerRow)
| Means (rows : list (string * option Q))
| Rates (rows : list (AggRow string))
| OrderedRates (rows : list (AggRow (option string))).

Definition Heap : Type := list Frame.
Definition Ref : Type := nat.

(** A piece of the script: it raises ([None]) or returns a value and the
    objects as it leaves them. *)
Definition Run (A : Type) : Type := Heap -> option (A * Heap).

Definition ret {A} (x : A) : Run A := fun h => Some (x, h).

Definition bind {A B} (m : Run A) (k : A -> Run B) : Run B :=
  fun h => match m h with
           | Some (x, h') => k x h'
           | None => None
           end.

Definition raise {A} : Run A := fun _ => None.

Notation "x <- m ;; k" := (bind m (fun x => k))
  (at level 61, m at next level, right associativity).
Notation "m ;;; k" := (bind m (fun _ => k))
  (at level 61, right associativity).

Definition new_frame (f : Frame) : Run Ref :=
  fun h => Some (List.length h, (h ++ [f])%list).

Definition frame_at (r : Ref) : Run Frame :=
  fun h => match nth_error h r with
           | Some f => Some (f, h)
           | None => None
           end.

Fixpoint replace_frame (r : Ref) (f : Frame) (h : Heap) : Heap :=
  match h, r with
  | [], _ => []
  | _ :: h', O => f :: h'
  | g :: h', S r' => g :: replace_frame r' f h'
  end.

Definition store_frame (r : Ref) (f : Frame) : Run unit :=
  fun h => match nth_error h r with
           | Some _ => Some (tt, replace_frame r f h)
           | None => None
           end.

(** *** The frames pandas builds *)

(** [groupby(key)['TenYearCHD'].mean().reset_index()]: a label column and
    a mean column, no percent column yet. *)
Definition group_means {R} (key : R -> option string) (value : R -> Z)
    (rows : list R) : list (string * option Q) :=
  map (fun k => (k, mean (map value (group_rows key k rows))))
      (sort_with String.leb (unique_keys key rows)).

Definition categorical_means {R} (observed : bool) (categories : list string)
    (key : R -> option string) (value : R -> Z) (rows : list R)
  : list (string * option Q) :=
  let occurs k := match group_rows key k rows with [] => false | _ => true end in
  map (fun k => (k, mean (map value (group_rows key k rows))))
      (if observed then filter occurs categories else categories).

Definition with_percent (r : string * option Q) : AggRow string :=
  mkAgg (fst r) (snd r) (times100 (snd r)).

Definition label_rank (categories : list string) (l : option string) : nat :=
  match l with
  | Some v => rank categories v
  | None => List.length categories
  end.

Definition has_label (l : option string) : bool :=
  match l with Some _ => true | None => false end.

(** [sort_values] on a frame whose label column is already categorical. *)
Definition sort_ordered (categories : list string)
    (rows : list (AggRow (option string))) : list (AggRow (option string)) :=
  (sort_with (fun a b => Nat.leb (label_rank categories (category a))
                                 (label_rank categories (category b)))
             (filter (fun a => has_label (category a)) rows)
   ++ filter (fun a => negb (has_label (category a))) rows)%list.

(** *** The statements of the script *)

(** [df[mask]] *)
Definition select_rows (keep : Row -> bool) (df : Ref) : Run Ref :=
  f <- frame_at df ;;
  match f with
  | Table rows => new_frame (Table (filter keep rows))
  | _ => raise
  end.

(** [df.copy()] *)
Definition copy_frame (df : Ref) : Run Ref :=
  f <- frame_at df ;; new_frame f.

(** [df.groupby(col)['TenYearCHD'].mean().reset_index()] *)
Definition groupby_mean_of (key : Row -> option string) (df : Ref) : Run Ref :=
  f <- frame_at df ;;
  match f with
  | Table rows =>
      new_frame (Means (group_means key (fun r : Row => TenYearCHD r) rows))
  | _ => raise
  end.

(** [smokers_df.groupby('Smoking_Intensity')['TenYearCHD'].mean().reset_index()] *)
Definition groupby_intensity_of (observed : bool) (df : Ref) : Run Ref :=
  f <- frame_at df ;;
  match f with
  | Smokers rows =>
      new_frame (Means (categorical_means observed labels Smoking_Intensity
                          (fun r : SmokerRow => TenYearCHD r) rows))
  | _ => raise
  end.

(** [df['CHD_Risk_%'] = df['TenYearCHD'] * 100] *)
Definition set_percent (df : Ref) : Run unit :=
  f <- frame_at df ;;
  match f with
  | Means rows => store_frame df (Rates (map with_percent rows))
  | _ => raise
  end.

(** [df['Smoking_Intensity'] = pd.cut(df['cigsPerDay'], ...)] *)
Definition set_intensity (df : Ref) : Run unit :=
  f <- frame_at df ;;
  match f with
  | Table rows =>
      store_frame df
        (Smokers (map (fun r : Row =>
                         mkSmoker r (smoking_intensity (cigsPerDay r))) rows))
  | _ => raise
  end.

(** [df[col] = pd.Categorical(df[col], categories=..., ordered=True)] *)
Definition set_categorical (categories : list string) (df : Ref) : Run unit :=
  f <- frame_at df ;;
  match f with
  | Rates rows => store_frame df (OrderedRates (map (as_categorical categories) rows))
  | _ => raise
  end.

(** [df.sort_values(col)] on the categorical label column *)
Definition sort_by_category (categories : list string) (df : Ref) : Run Ref :=
  f <- frame_at df ;;
  match f with
  | OrderedRates rows => new_frame (OrderedRates (sort_ordered categories rows))
  | _ => raise
  end.

(** [df.sort_values('CHD_Risk_%', ascending=False)] *)
Definition sort_by_risk (df : Ref) : Run Ref :=
  f <- frame_at df ;;
  match f with
  | Rates rows => new_frame (Rates (sort_values_desc rows))
  | _ => raise
  end.

(** What a figure reads from a frame when it is built. *)
Definition rates_of (df : Ref) : Run (list (AggRow string)) :=
  f <- frame_at df ;;
  match f with
  | Rates rows => ret rows
  | _ => raise
  end.

Definition ordered_rates_of (df : Ref)
  : Run (list (AggRow (option string))) :=
  f <- frame_at df ;;
  match f with
  | OrderedRates rows => ret rows
  | _ => raise
  end.

Definition column_of {A} (col : Row -> A) (df : Ref) : Run (list A) :=
  f <- frame_at df ;;
  match f with
  | Table rows => ret (map col rows)
  | _ => raise
  end.

(** Lines 60 to 134 of the script, statement by statement; a name that the
    script binds again is bound again here. *)
Definition pipeline (observed : bool) (data : Ref)
    (gender_options : list (option string)) (age_range : Z * Z)
  : Run Aggregates :=
  filtered_data <-
    select_rows (fun r : Row =>
                   isin (gender r) gender_options
                   && between (age r) (fst age_range) (snd age_range)) data ;;
  risk_data <- select_rows (fun r : Row => TenYearCHD r =? 1) filtered_data ;;
  chd_rate_gender <- groupby_mean_of (fun r : Row => gender r) filtered_data ;;
  set_percent chd_rate_gender ;;;
  fig_sex <- rates_of chd_rate_gender ;;
  fig_age <- column_of (fun r : Row => age r) risk_data ;;
  chd_rate_edu <- groupby_mean_of Education_Level filtered_data ;;
  set_percent chd_rate_edu ;;;
  sorted_by_risk <- sort_by_risk chd_rate_edu ;;
  risk_rows <- rates_of sorted_by_risk ;;
  set_categorical edu_order chd_rate_edu ;;;
  chd_rate_edu <- sort_by_category edu_order chd_rate_edu ;;
  fig_edu <- ordered_rates_of chd_rate_edu ;;
  chd_rate_smoke <-
    groupby_mean_of (fun r : Row => Some (Smoking_Status r)) filtered_data ;;
  set_percent chd_rate_smoke ;;;
  fig_smoke <- rates_of chd_rate_smoke ;;
  smokers <- select_rows (fun r : Row => currentSmoker r =? 1) filtered_data ;;
  smokers_df <- copy_frame smokers ;;
  set_intensity smokers_df ;;;
  chd_rate_intensity <- groupby_intensity_of observed smokers_df ;;
  set_percent chd_rate_intensity ;;;
  fig_intensity <- rates_of chd_rate_intensity ;;
  bmi_no_chd <- select_rows (fun r : Row => TenYearCHD r =? 0) filtered_data ;;
  bmi_0 <- column_of (fun r : Row => BMI r) bmi_no_chd ;;
  bmi_chd <- select_rows (fun r : Row => TenYearCHD r =? 1) filtered_data ;;
  bmi_1 <- column_of (fun r : Row => BMI r) bmi_chd ;;
  chol_no_chd <- select_rows (fun r : Row => TenYearCHD r =? 0) filtered_data ;;
  chol_0 <- column_of (fun r : Row => totChol r) chol_no_chd ;;
  chol_chd <- select_rows (fun r : Row => TenYearCHD r =? 1) filtered_data ;;
  chol_1 <- column_of (fun r : Row => totChol r) chol_chd ;;
  chd_rate_bp <- groupby_mean_of (fun r : Row => BP_Category r) filtered_data ;;
  set_percent chd_rate_bp ;;;
  set_categorical bp_order chd_rate_bp ;;;
  chd_rate_bp <- sort_by_category bp_order chd_rate_bp ;;
  fig_bp <- ordered_rates_of chd_rate_bp ;;
  ret (mkAggregates fig_sex fig_age fig_edu
         (combine (map category risk_rows) CUSTOM_RED_PALETTE)
         fig_smoke fig_intensity (bmi_0, bmi_1) (chol_0, chol_1) fig_bp).

(** *** What outlives a run *)

(** [st.session_state] and the entry of [st.cache_data] for [load_data]. *)
Record World : Type := mkWorld {
  session : SessionState;
  cache : option (list Row)
}.

(** [@st.cache_data def load_data()]: the file is read on a miss only, and
    the result is kept; every call hands out its own copy of the table. *)
Definition cached_load_data (csv : list Subject) (w : World)
  : list Row * World :=
  match cache w with
  | Some table => (table, w)
  | None => (load_data csv, mkWorld (session w) (Some (load_data csv)))
  end.

Inductive Outcome : Type :=
| stopped
| raised
| shown (a : Aggregates) (figures : list Figure).

(** While the gate is closed [check_password] draws the password box; a
    box with a key has its text under that key from then on. *)
Definition draw_password_box (s : SessionState) : SessionState :=
  mkSession (Some (box_value s)) (password_correct s).

(** One run of the script from top to bottom, in a namespace of its own:
    the gate, [data = load_data()] as the first object, the sidebar (which
    raises when the age bounds or the slider cannot be built), the
    pipeline on the selections, the layout. *)
Definition run_script (observed : bool) (csv : list Subject)
    (gender_options : list (option string)) (age_range : Z * Z)
    (risk_factor : RiskFactor) (w : World) : World * Outcome :=
  if check_password (session w)
  then let (table, w') := cached_load_data csv w in
       match default_age_range table with
       | None => (w', raised)
       | Some _ =>
           match (data <- new_frame (Table table) ;;
                  pipeline observed data gender_options age_range) [] with
           | Some (a, _) => (w', shown a (layout a risk_factor))
           | None => (w', raised)
           end
       end
  else (mkWorld (draw_password_box (session w)) (cache w), stopped).

End Script.

(* ================================================================== *)
(** ** Lemmas on the pandas operations *)
(* ================================================================== *)

Import Pandas App Props.

Lemma label_eqb_eq (a b : option string) : label_eqb a b = true <-> a = b.
Proof.
  destruct a as [x|], b as [y|]; simpl; try (split; congruence).
  rewrite String.eqb_eq. split; congruence.
Qed.

Lemma isin_In (x : option string) (values : list (option string)) :
  isin x values = true <-> In x values.
Proof.
  unfold isin. rewrite existsb_exists. split.
  - intros [y [Hy E]]. apply label_eqb_eq in E. now subst.
  - intros H. exists x. split; [assumption | now apply label_eqb_eq].
Qed.

Lemma between_spec (x lo hi : Z) : between x lo hi = true <-> lo <= x <= hi.
Proof. unfold between. rewrite andb_true_iff, !Z.leb_le. tauto. Qed.

Section SortFacts.
Context {A : Type} (leb : A -> A -> bool).

Lemma insert_sorted_perm (x : A) (l : list A) :
  Permutation (insert_sorted leb x l) (x :: l).
Proof.
  induction l as [|y l IH]; simpl.
  - reflexivity.
  - destruct (leb x y).
    + reflexivity.
    + rewrite IH. apply perm_swap.
Qed.

Lemma sort_with_perm (l : list A) : Permutation (sort_with leb l) l.
Proof.
  induction l as [|x l IH]; simpl.
  - reflexivity.
  - rewrite insert_sorted_perm. now constructor.
Qed.

Lemma sort_with_In (l : list A) (x : A) : In x (sort_with leb l) <-> In x l.
Proof.
  split; apply Permutation_in;
    [apply sort_with_perm | symmetry; apply sort_with_perm].
Qed.

End SortFacts.

(** *** Bands of [pd.cut] *)

Lemma Qle_bool_false (x y : Q) : Qle_bool x y = false <-> (y < x)%Q.
Proof.
  rewrite <- not_true_iff_false, Qle_bool_iff. split.
  - apply Qnot_le_lt.
  - apply Qlt_not_le.
Qed.

Ltac q_cases :=
  repeat match goal with
         | |- context [Qle_bool ?a ?b] =>
             let E := fresh "E" in
             destruct (Qle_bool a b) eqn:E;
             [apply Qle_bool_iff in E | apply Qle_bool_false in E]
         | H : context [Qle_bool ?a ?b] |- _ =>
             let E := fresh "E" in
             destruct (Qle_bool a b) eqn:E;
             [apply Qle_bool_iff in E | apply Qle_bool_false in E]
         end;
  simpl in *.

(** The bands the script's bins give: [0, 9), [9, 19) and [19, 70). *)
Lemma smoking_intensity_bands (q : Q) :
  smoking_intensity (Some q) =
    if Qle_bool 0 q && negb (Qle_bool 9 q) then Some "Light (1-9)"
    else if Qle_bool 9 q && negb (Qle_bool 19 q) then Some "Moderate (10-19)"
    else if Qle_bool 19 q && negb (Qle_bool 70 q) then Some "Heavy (20+)"
    else None.
Proof. reflexivity. Qed.

Lemma smoking_intensity_in_range (c : option Q) (l : string) :
  smoking_intensity c = Some l ->
  exists q, c = Some q /\ (0 <= q)%Q /\ (q < 70)%Q.
Proof.
  destruct c as [q|]; [|discriminate].
  rewrite smoking_intensity_bands. intros H. exists q.
  split; [reflexivity|].
  q_cases; try discriminate; split; lra.
Qed.

Lemma smoking_intensity_out_of_range (q : Q) :
  Qle_bool 0 q && negb (Qle_bool 70 q) = false ->
  smoking_intensity (Some q) = None.
Proof.
  rewrite smoking_intensity_bands. intros H.
  q_cases; try discriminate; try reflexivity; lra.
Qed.

Lemma smoking_intensity_known (c : option Q) (l : string) :
  smoking_intensity c = Some l -> In l labels.
Proof.
  destruct c as [q|]; [|discriminate].
  rewrite smoking_intensity_bands.
  q_cases; intros H; inversion H; simpl; auto.
Qed.

(** *** Groups *)

Section GroupFacts.
Context {R : Type} (key : R -> option string).

Lemma group_rows_In (k : string) (rows : list R) (r : R) :
  In r (group_rows key k rows) <-> In r rows /\ key r = Some k.
Proof.
  unfold group_rows. rewrite filter_In, label_eqb_eq. tauto.
Qed.

Lemma present_keys_In (rows : list R) (k : string) :
  In k (present_keys key rows) <-> exists r, In r rows /\ key r = Some k.
Proof.
  induction rows as [|r rows IH]; simpl.
  - split; [tauto | intros [r [[] _]]].
  - destruct (key r) as [k'|] eqn:E; simpl; rewrite IH; split.
    + intros [->|[r' [Hr' Hk]]]; [exists r | exists r']; auto.
    + intros [r' [[<-|Hr'] Hk]]; [left; congruence | right; exists r'; auto].
    + intros [r' [Hr' Hk]]. exists r'; auto.
    + intros [r' [[<-|Hr'] Hk]]; [congruence | exists r'; auto].
Qed.

Context (value : R -> Z).

Lemma groupby_mean_categories (rows : list R) :
  map category (groupby_mean key value rows)
  = sort_with String.leb (unique_keys key rows).
Proof.
  unfold groupby_mean. rewrite map_map. simpl. apply map_id.
Qed.

Lemma groupby_mean_NoDup (rows : list R) :
  NoDup (map category (groupby_mean key value rows)).
Proof.
  rewrite groupby_mean_categories.
  apply (Permutation_NoDup (l := unique_keys key rows)).
  - symmetry. apply sort_with_perm.
  - apply NoDup_nodup.
Qed.

Lemma groupby_mean_In (rows : list R) (a : AggRow string) :
  In a (groupby_mean key value rows) <->
  a = agg_row key value rows (category a) /\
  exists r, In r rows /\ key r = Some (category a).
Proof.
  unfold groupby_mean. rewrite in_map_iff. split.
  - intros [k [<- Hk]]. simpl. split; [reflexivity|].
    apply sort_with_In in Hk. unfold unique_keys in Hk.
    apply nodup_In in Hk. now apply present_keys_In.
  - intros [Ha Hr]. exists (category a). split; [now symmetry|].
    apply sort_with_In. unfold unique_keys. apply nodup_In.
    now apply present_keys_In.
Qed.

End GroupFacts.

(** *** Means of a 0/1 column *)

Lemma filter_length_le {A} (p : A -> bool) (l : list A) :
  (List.length (filter p l) <= List.length l)%nat.
Proof.
  induction l as [|x l IH]; simpl; [lia|]. destruct (p x); simpl; lia.
Qed.

Lemma ratio_percent_bounds (s n : Z) :
  0 <= s <= n -> 0 < n ->
  (0 <= inject_Z s / inject_Z n * 100)%Q /\
  (inject_Z s / inject_Z n * 100 <= 100)%Q.
Proof.
  intros [Hs Hn] Hpos.
  assert (Hq : (0 < inject_Z n)%Q) by (rewrite (Zlt_Qlt 0 n) in Hpos; exact Hpos).
  assert (H0 : (0 <= inject_Z s / inject_Z n)%Q).
  { apply Qle_shift_div_l; [exact Hq|].
    rewrite Qmult_0_l. rewrite (Zle_Qle 0 s) in Hs. exact Hs. }
  assert (H1 : (inject_Z s / inject_Z n <= 1)%Q).
  { apply Qle_shift_div_r; [exact Hq|].
    rewrite Qmult_1_l. rewrite (Zle_Qle s n) in Hn. exact Hn. }
  split; lra.
Qed.

Lemma mean_nonempty (xs : list Z) :
  xs <> [] ->
  mean xs = Some (inject_Z (total xs) / inject_Z (Z.of_nat (List.length xs)))%Q.
Proof. destruct xs; [congruence | reflexivity]. Qed.

Section MeanFacts.
Context {R : Type} (key : R -> option string) (value : R -> Z).

Lemma total_binary (g : list R) :
  binary_column value g ->
  total (map value g)
  = Z.of_nat (List.length (filter (fun r => value r =? 1) g)).
Proof.
  induction 1 as [|r g Hr _ IH]; [reflexivity|].
  unfold total in *. cbn [map fold_right filter]. rewrite IH.
  destruct Hr as [E | E]; rewrite E;
    cbn [Z.eqb Pos.eqb List.length]; [|rewrite Nat2Z.inj_succ]; lia.
Qed.

Lemma binary_column_filter (p : R -> bool) (rows : list R) :
  binary_column value rows -> binary_column value (filter p rows).
Proof.
  unfold binary_column. rewrite !Forall_forall. intros H r Hr.
  apply filter_In in Hr. now apply H.
Qed.

(** The aggregate row of a group that has a row. *)
Lemma agg_row_binary (rows : list R) (c : string) :
  binary_column value rows ->
  group_rows key c rows <> [] ->
  agg_row key value rows c
  = mkAgg c (Some (inject_Z (group_cases key value c rows)
                   / inject_Z (group_size key c rows))%Q)
            (Some (group_rate key value c rows)).
Proof.
  intros Hb Hne. unfold agg_row, group_rate, group_cases, group_size.
  pose proof (total_binary _ (binary_column_filter
                                (fun r => label_eqb (key r) (Some c)) _ Hb)) as T.
  fold (group_rows key c rows) in T.
  rewrite mean_nonempty by (destruct (group_rows key c rows); simpl; congruence).
  rewrite length_map, T. reflexivity.
Qed.

Lemma group_rate_bounds (rows : list R) (c : string) :
  group_rows key c rows <> [] ->
  (0 <= group_rate key value c rows)%Q /\
  (group_rate key value c rows <= 100)%Q.
Proof.
  intros Hne. apply ratio_percent_bounds; unfold group_cases, group_size.
  - split; [lia|]. apply Nat2Z.inj_le, filter_length_le.
  - destruct (group_rows key c rows); [congruence | simpl; lia].
Qed.

Lemma group_rows_nonempty (rows : list R) (c : string) :
  group_rows key c rows <> [] <-> exists r, In r rows /\ key r = Some c.
Proof.
  split.
  - destruct (group_rows key c rows) as [|r g] eqn:E; [congruence|].
    intros _. exists r. apply (group_rows_In key c rows r).
    rewrite E. now left.
  - intros [r Hr] E. apply (group_rows_In key c rows r) in Hr.
    rewrite E in Hr. exact Hr.
Qed.

(** Every row of a [groupby] over strings carries the rate of its group. *)
Lemma groupby_mean_row (rows : list R) (a : AggRow string) :
  binary_column value rows ->
  In a (groupby_mean key value rows) ->
  group_rows key (category a) rows <> [] /\
  CHD_Risk_pct a = Some (group_rate key value (category a) rows).
Proof.
  intros Hb Ha. apply groupby_mean_In in Ha. destruct Ha as [Ea Hr].
  apply group_rows_nonempty in Hr. split; [exact Hr|].
  rewrite Ea. rewrite agg_row_binary by assumption. reflexivity.
Qed.
End MeanFacts.

(** *** Ordered categories *)

Lemma filter_strongly_sorted {A} (R : A -> A -> Prop) (p : A -> bool)
    (l : list A) :
  StronglySorted R l -> StronglySorted R (filter p l).
Proof.
  induction 1 as [|x l Hl IH Hx]; simpl; [constructor|].
  destruct (p x); [|assumption].
  constructor; [assumption|].
  rewrite Forall_forall in *. intros y Hy. apply filter_In in Hy. now apply Hx.
Qed.

Lemma NoDup_map_filter {A B} (label : A -> B) (keep : A -> bool)
    (rows : list A) (Hnd : NoDup (map label rows)) :
  NoDup (map label (filter keep rows)).
Proof.
  revert Hnd. induction rows as [|x rows IH]; simpl; intros H; [constructor|].
  inversion H as [|? ? Hx Hl]; subst.
  destruct (keep x); simpl; [|now apply IH].
  constructor; [|now apply IH].
  intros Hin. apply Hx. apply in_map_iff in Hin. destruct Hin as [y [E Hy]].
  apply filter_In in Hy. rewrite <- E. apply in_map. tauto.
Qed.

Section CategoryFacts.
Variable categories : list string.

Lemma code_In (v : string) (i : nat) :
  code categories v = Some i -> In v categories.
Proof.
  revert i. induction categories as [|c cs IH]; simpl; intros i H.
  - discriminate.
  - destruct (String.eqb v c) eqn:E.
    + apply String.eqb_eq in E. now left.
    + destruct (code cs v) as [j|]; [|discriminate]. right. now apply (IH j).
Qed.

Lemma known_In (v : string) : known categories v = true <-> In v categories.
Proof.
  unfold known. split.
  - destruct (code categories v) as [i|] eqn:E; [|discriminate].
    intros _. now apply (code_In v i).
  - induction categories as [|c cs IH]; simpl; [tauto|].
    intros [->|H].
    + now rewrite String.eqb_refl.
    + destruct (String.eqb v c); [reflexivity|].
      specialize (IH H). destruct (code cs v); [reflexivity | discriminate].
Qed.

Lemma code_inj (a b : string) (i : nat) :
  code categories a = Some i -> code categories b = Some i -> a = b.
Proof.
  revert i. induction categories as [|c cs IH]; simpl; intros i Ha Hb.
  - discriminate.
  - destruct (String.eqb a c) eqn:Ea, (String.eqb b c) eqn:Eb.
    + apply String.eqb_eq in Ea, Eb. congruence.
    + destruct (code cs b); simpl in Hb; congruence.
    + destruct (code cs a); simpl in Ha; congruence.
    + destruct (code cs a) as [j|] eqn:Ca; [|discriminate].
      destruct (code cs b) as [k|] eqn:Cb; [|discriminate].
      simpl in Ha, Hb. apply (IH j); congruence.
Qed.

Lemma rank_inj (a b : string) :
  known categories a = true -> known categories b = true ->
  rank categories a = rank categories b -> a = b.
Proof.
  unfold known, rank.
  destruct (code categories a) as [i|] eqn:Ca; [|discriminate].
  destruct (code categories b) as [j|] eqn:Cb; [|discriminate].
  intros _ _ ->. now apply (code_inj a b j).
Qed.

Let by_rank (a b : AggRow string) : bool :=
    Nat.leb (rank categories (category a)) (rank categories (category b)).
Let rank_le (a b : AggRow string) : Prop :=
    (rank categories (category a) <= rank categories (category b))%nat.
Let rank_lt (x y : string) : Prop :=
    (rank categories x < rank categories y)%nat.

Lemma insert_by_rank_sorted (x : AggRow string) (l : list (AggRow string)) :
  StronglySorted rank_le l -> StronglySorted rank_le (insert_sorted by_rank x l).
Proof.
  induction 1 as [|y l Hl IH Hy]; simpl.
  - repeat constructor.
  - unfold by_rank at 1. destruct (Nat.leb_spec (rank categories (category x))
                                                (rank categories (category y))) as [L|L].
    + constructor; [now constructor|].
      constructor; [exact L|].
      eapply Forall_impl; [|exact Hy]. unfold rank_le. intros; lia.
    + constructor; [exact IH|].
      rewrite insert_sorted_perm.
      constructor; [unfold rank_le; lia | exact Hy].
Qed.

Lemma sort_by_rank_sorted (l : list (AggRow string)) :
  StronglySorted rank_le (sort_with by_rank l).
Proof.
  induction l as [|x l IH]; simpl.
  - constructor.
  - now apply insert_by_rank_sorted.
Qed.

Lemma sorted_labels_strict (l : list (AggRow string)) :
  StronglySorted rank_le l ->
  NoDup (map category l) ->
  Forall (fun a => known categories (category a) = true) l ->
  StronglySorted rank_lt (map category l).
Proof.
  induction 1 as [|a l Hl IH Ha]; simpl; intros Hnd Hk.
  - constructor.
  - inversion Hnd as [|? ? Hnotin Hnd']; subst.
    inversion Hk as [|? ? Hka Hk']; subst.
    constructor; [now apply IH|].
    rewrite Forall_forall in *. intros y Hy.
    apply in_map_iff in Hy. destruct Hy as [b [<- Hb]].
    specialize (Ha b Hb). specialize (Hk' b Hb).
    unfold rank_lt, rank_le in *.
    assert (rank categories (category a) <> rank categories (category b)).
    { intros E. apply rank_inj in E; try assumption.
      apply Hnotin. rewrite E. now apply in_map. }
    lia.
Qed.

Lemma strict_sorted_unique (l1 l2 : list string) :
  StronglySorted rank_lt l1 -> StronglySorted rank_lt l2 ->
  (forall x, In x l1 <-> In x l2) -> l1 = l2.
Proof.
  intros S1. revert l2.
  induction S1 as [|a l1 S1 IH Ha]; intros l2 S2 Hin.
  - destruct l2 as [|b l2]; [reflexivity|].
    exfalso. apply (proj2 (Hin b)). now left.
  - destruct S2 as [|b l2 S2 Hb].
    + exfalso. apply (proj1 (Hin a)). now left.
    + rewrite Forall_forall in Ha, Hb. unfold rank_lt in *.
      assert (a = b) as ->.
      { destruct (proj1 (Hin a) (or_introl eq_refl)) as [E|Hal2]; [now symmetry|].
        destruct (proj2 (Hin b) (or_introl eq_refl)) as [E|Hbl1]; [assumption|].
        specialize (Ha b Hbl1). specialize (Hb a Hal2). lia. }
      f_equal. apply IH; [assumption|].
      intros x. split; intros Hx.
      * destruct (proj1 (Hin x) (or_intror Hx)) as [E|H]; [|assumption].
        subst x. specialize (Ha b Hx). lia.
      * destruct (proj2 (Hin x) (or_intror Hx)) as [E|H]; [|assumption].
        subst x. specialize (Hb b Hx). lia.
Qed.

Lemma map_nan_rows (l : list (AggRow string)) :
  Forall (fun a => known categories (category a) = false) l ->
  map category (map (as_categorical categories) l)
  = repeat None (List.length l).
Proof.
  induction 1 as [|a l Ha _ IH]; simpl; [reflexivity|].
  rewrite Ha, IH. reflexivity.
Qed.

Lemma map_known_rows (l : list (AggRow string)) :
  Forall (fun a => known categories (category a) = true) l ->
  map category (map (as_categorical categories) l)
  = map Some (map category l).
Proof.
  induction 1 as [|a l Ha _ IH]; simpl; [reflexivity|].
  rewrite Ha, IH. reflexivity.
Qed.

(** The label column after the categorical sort: the categories that
    occur, in the order of [categories], then one NaN per label that is no
    category. *)
Lemma sort_values_categorical_labels (agg : list (AggRow string)) :
  StronglySorted rank_lt categories ->
  NoDup (map category agg) ->
  map category (sort_values_categorical categories agg)
  = (map Some (filter (fun c => existsb (String.eqb c) (map category agg))
                      categories)
     ++ repeat None
          (List.length
             (filter (fun a => negb (known categories (category a))) agg)))%list.
Proof.
  intros Hcats Hnd. unfold sort_values_categorical.
  rewrite !map_app. f_equal.
  - fold by_rank.
    set (has := filter (fun a => known categories (category a)) agg).
    assert (Hk : Forall (fun a => known categories (category a) = true)
                        (sort_with by_rank has)).
    { rewrite Forall_forall. intros a Ha. apply sort_with_In in Ha.
      unfold has in Ha. apply filter_In in Ha. tauto. }
    rewrite map_known_rows by exact Hk. f_equal.
    apply strict_sorted_unique.
    + apply sorted_labels_strict; [apply sort_by_rank_sorted | | exact Hk].
      apply (Permutation_NoDup (l := map category has)).
      * apply Permutation_map. symmetry. apply sort_with_perm.
      * now apply NoDup_map_filter.
    + now apply filter_strongly_sorted.
    + intros x. rewrite in_map_iff, filter_In, existsb_exists. split.
      * intros [a [<- Ha]]. apply sort_with_In in Ha. unfold has in Ha.
        apply filter_In in Ha. destruct Ha as [Ha Hka].
        split; [now apply known_In|].
        exists (category a). split; [now apply in_map | apply String.eqb_refl].
      * intros [Hx [y [Hy E]]]. apply String.eqb_eq in E. subst y.
        apply in_map_iff in Hy. destruct Hy as [a [<- Ha]].
        exists a. split; [reflexivity|]. apply sort_with_In. unfold has.
        apply filter_In. split; [assumption | now apply known_In].
  - apply map_nan_rows. rewrite Forall_forall. intros a Ha.
    apply filter_In in Ha. now apply negb_true_iff.
Qed.

Lemma sort_values_categorical_perm (agg : list (AggRow string)) :
  Permutation (sort_values_categorical categories agg)
              (map (as_categorical categories) agg).
Proof.
  unfold sort_values_categorical. apply Permutation_map.
  rewrite sort_with_perm.
  induction agg as [|a l IH]; simpl; [reflexivity|].
  destruct (known categories (category a)); simpl.
  - now constructor.
  - rewrite <- Permutation_middle. now constructor.
Qed.
End CategoryFacts.

(* ================================================================== *)
(** ** Loader *)
(* ================================================================== *)



Lemma education_level_known (e : option Q) (l : string) :
  education_level e = Some l -> known edu_order l = true.
Proof.
  destruct e as [x|]; [|discriminate].
  cbn [education_level education_map map_dict].
  destruct (Qeq_bool x 1); [intros H; inversion H; reflexivity|].
  destruct (Qeq_bool x 2); [intros H; inversion H; reflexivity|].
  destruct (Qeq_bool x 3); [intros H; inversion H; reflexivity|].
  destruct (Qeq_bool x 4); [intros H; inversion H; reflexivity|].
  discriminate.
Qed.

(* ================================================================== *)
(** ** Filter *)
(* ================================================================== *)

Lemma filtered_data_incl (data : list Row)
    (gender_options : list (option string)) (age_range : Z * Z) (r : Row) :
  In r (filtered_data data gender_options age_range) -> In r data.
Proof. unfold filtered_data. intros H. now apply filter_In in H. Qed.

(** C3: a row is in [filtered_data] exactly when it is a row of the input
    table, its gender is in the selection and its age lies in the inclusive
    range. *)
Theorem filtered_data_spec (data : list Row)
    (gender_options : list (option string)) (age_range : Z * Z) (r : Row) :
  In r (filtered_data data gender_options age_range) <->
  In r data /\ In (gender r) gender_options /\
  fst age_range <= age r <= snd age_range.
Proof.
  unfold filtered_data.
  rewrite filter_In, andb_true_iff, isin_In, between_spec. tauto.
Qed.

(* ================================================================== *)
(** ** Smoking intensity *)
(* ================================================================== *)

Lemma smokers_df_In (fd : list Row) (sr : SmokerRow) :
  In sr (smokers_df fd) <->
  exists r : Row, In r fd /\ currentSmoker r = 1 /\
                  sr = mkSmoker r (smoking_intensity (cigsPerDay r)).
Proof.
  unfold smokers_df. rewrite in_map_iff. split.
  - intros [r [<- Hr]]. apply filter_In in Hr. destruct Hr as [Hr Hs].
    apply Z.eqb_eq in Hs. exists r. auto.
  - intros [r [Hr [Hs ->]]]. exists r. split; [reflexivity|].
    apply filter_In. split; [assumption | now apply Z.eqb_eq].
Qed.

Lemma banded_smoker_false_intensity (r : Row) :
  currentSmoker r = 1 -> banded_smoker r = false ->
  smoking_intensity (cigsPerDay r) = None.
Proof.
  unfold banded_smoker. intros ->. simpl.
  destruct (cigsPerDay r) as [q|]; [|reflexivity].
  apply smoking_intensity_out_of_range.
Qed.

Lemma banded_smoker_true (r : Row) :
  banded_smoker r = true <->
  currentSmoker r = 1 /\
  exists q, cigsPerDay r = Some q /\ (0 <= q)%Q /\ (q < 70)%Q.
Proof.
  unfold banded_smoker. rewrite andb_true_iff, Z.eqb_eq.
  destruct (cigsPerDay r) as [q|].
  - rewrite andb_true_iff, negb_true_iff, Qle_bool_iff, Qle_bool_false.
    split.
    + intros [H1 [H2 H3]]. split; [assumption|]. exists q. auto.
    + intros [H1 [q' [E [H2 H3]]]]. inversion E; subst. auto.
  - split; [intros [_ H]; discriminate|].
    intros [_ [q [E _]]]. discriminate.
Qed.

(** The rows of a band are untouched by dropping the rows that are no
    smoker or whose [cigsPerDay] is outside [0, 70). *)
Lemma band_rows_banded (l : string) (fd : list Row) :
  group_rows Smoking_Intensity l (smokers_df fd)
  = group_rows Smoking_Intensity l (smokers_df (filter banded_smoker fd)).
Proof.
  unfold group_rows, smokers_df.
  induction fd as [|r fd IH]; [reflexivity|].
  cbn [filter]. destruct (currentSmoker r =? 1) eqn:Es.
  - apply Z.eqb_eq in Es.
    destruct (banded_smoker r) eqn:Eb.
    + cbn [filter map]. rewrite (proj2 (Z.eqb_eq _ _) Es). cbn [filter map].
      cbn [Smoking_Intensity].
      destruct (label_eqb (smoking_intensity (cigsPerDay r)) (Some l));
        [f_equal|]; exact IH.
    + cbn [filter map]. cbn [Smoking_Intensity].
      rewrite (banded_smoker_false_intensity r Es Eb). exact IH.
  - assert (Eb : banded_smoker r = false)
      by (unfold banded_smoker; now rewrite Es).
    rewrite Eb. exact IH.
Qed.

Lemma groupby_categorical_ext {R} (key : R -> option string) (value : R -> Z)
    (observed : bool) (categories : list string) (rows1 rows2 : list R) :
  (forall k, group_rows key k rows1 = group_rows key k rows2) ->
  groupby_categorical_mean key value observed categories rows1
  = groupby_categorical_mean key value observed categories rows2.
Proof.
  intros H. unfold groupby_categorical_mean, agg_row.
  rewrite (filter_ext _ (fun k => match group_rows key k rows2 with
                                  | [] => false | _ => true end))
    by (intros k; now rewrite H).
  apply map_ext. intros k. now rewrite H.
Qed.

(** C1 (evaluation of the script's bands): a smoker with [cigsPerDay = 9]
    is labelled "Moderate (10-19)", not "Light (1-9)"; 10 is labelled
    "Moderate (10-19)" and 25 "Heavy (20+)". *)
Theorem intensity_of_9_10_25 :
  map Smoking_Intensity
      (smokers_df [smoker_with 9; smoker_with 10; smoker_with 25])
  = [Some "Moderate (10-19)"; Some "Moderate (10-19)"; Some "Heavy (20+)"].
Proof. reflexivity. Qed.

(** C10: a filtered row of a smoker with [cigsPerDay = 0] is a row of
    [smokers_df] labelled "Light (1-9)", it is one of the rows of that band,
    and the aggregate lists the band with the mean over those rows. *)
Theorem zero_cigarettes_is_light (observed : bool) (fd : list Row) (r : Row) :
  In r fd -> currentSmoker r = 1 -> cigsPerDay r = Some 0%Q ->
  let light := group_rows Smoking_Intensity "Light (1-9)" (smokers_df fd) in
  let m := mean (map (fun sr : SmokerRow => TenYearCHD sr) light) in
  In (mkSmoker r (Some "Light (1-9)")) (smokers_df fd) /\
  In (mkSmoker r (Some "Light (1-9)")) light /\
  m <> None /\
  In (mkAgg "Light (1-9)" m (times100 m)) (chd_rate_intensity observed fd).
Proof.
  intros Hr Hs Hc light m.
  assert (Hin : In (mkSmoker r (Some "Light (1-9)")) (smokers_df fd)).
  { apply smokers_df_In. exists r. rewrite Hc. auto. }
  assert (Hl : In (mkSmoker r (Some "Light (1-9)")) light).
  { unfold light. apply group_rows_In.
    split; [exact Hin | reflexivity]. }
  assert (Hne : light <> []) by (intros E; rewrite E in Hl; exact Hl).
  split; [exact Hin|]. split; [exact Hl|]. split.
  - subst m. destruct light; [congruence | discriminate].
  - unfold chd_rate_intensity, groupby_categorical_mean.
    apply in_map_iff. exists "Light (1-9)". split; [reflexivity|].
    destruct observed; [|simpl; auto].
    apply filter_In. split; [simpl; auto|].
    fold light. destruct light; [congruence | reflexivity].
Qed.

Lemma zero_cigarettes_is_light_witness :
  In (mkAgg "Light (1-9)" (Some 0%Q) (Some 0%Q))
     (chd_rate_intensity false [smoker_with 0]).
Proof.
  apply (zero_cigarettes_is_light false [smoker_with 0] (smoker_with 0));
    [left; reflexivity | reflexivity | reflexivity].
Defined.

(** C6: every row of [smokers_df] is a current smoker, the rows of a band
    are smokers with [cigsPerDay] in [0, 70), and the aggregate is the one
    of the table without the non-smokers and without the smokers outside
    that range: those rows contribute to no band, and no input raises. *)
Theorem intensity_only_banded_smokers (observed : bool) (fd : list Row) :
  (forall sr : SmokerRow, In sr (smokers_df fd) -> currentSmoker sr = 1) /\
  (forall (l : string) (sr : SmokerRow),
      In sr (group_rows Smoking_Intensity l (smokers_df fd)) ->
      currentSmoker sr = 1 /\
      exists q, cigsPerDay sr = Some q /\ (0 <= q)%Q /\ (q < 70)%Q) /\
  chd_rate_intensity observed fd
  = chd_rate_intensity observed (filter banded_smoker fd).
Proof.
  split; [|split].
  - intros sr H. apply smokers_df_In in H. destruct H as [r [_ [Hs ->]]].
    exact Hs.
  - intros l sr H. apply group_rows_In in H. destruct H as [H Hl].
    apply smokers_df_In in H. destruct H as [r [_ [Hs ->]]].
    split; [exact Hs|]. cbn [Smoking_Intensity] in Hl.
    apply smoking_intensity_in_range in Hl. exact Hl.
  - unfold chd_rate_intensity. apply groupby_categorical_ext.
    intros k. apply band_rows_banded.
Qed.

Lemma intensity_only_banded_smokers_witness :
  currentSmoker (smoker_with 80) = 1
  /\ chd_rate_intensity false [smoker_with 80; smoker_with 5]
     = chd_rate_intensity false [smoker_with 5].
Proof.
  split.
  - apply (proj1 (intensity_only_banded_smokers
                    false [smoker_with 80; smoker_with 5])
             (mkSmoker (smoker_with 80) None)).
    left. reflexivity.
  - exact (proj2 (proj2 (intensity_only_banded_smokers
                           false [smoker_with 80; smoker_with 5]))).
Defined.

(* ================================================================== *)
(** ** Rates by category *)
(* ================================================================== *)

Lemma group_size_pos {R} (key : R -> option string) (c : string)
    (rows : list R) :
  group_size key c rows > 0 <-> group_rows key c rows <> [].
Proof.
  unfold group_size. destruct (group_rows key c rows); simpl; split;
    try lia; congruence.
Qed.

Lemma sample_csv_binary : binary_outcome (load_data sample_csv).
Proof.
  unfold binary_outcome, binary_column. simpl.
  repeat (apply Forall_cons; [simpl; auto|]). apply Forall_nil.
Qed.

Lemma sort_values_categorical_In (categories : list string)
    (agg : list (AggRow string)) (a : AggRow (option string)) :
  In a (sort_values_categorical categories agg) <->
  exists a0, In a0 agg /\ a = as_categorical categories a0.
Proof.
  split.
  - intros H.
    apply (Permutation_in _ (sort_values_categorical_perm categories agg)) in H.
    apply in_map_iff in H. destruct H as [a0 [E H]]. exists a0. auto.
  - intros [a0 [H ->]].
    apply (Permutation_in _ (Permutation_sym
                               (sort_values_categorical_perm categories agg))).
    now apply in_map.
Qed.

Lemma Permutation_filter_keep {A} (keep : A -> bool) (l l' : list A) :
  Permutation l l' -> Permutation (filter keep l) (filter keep l').
Proof.
  induction 1 as [|x l l' H IH|x y l|l l' l'' H1 IH1 H2 IH2]; cbn [filter].
  - constructor.
  - destruct (keep x); [now constructor | exact IH].
  - destruct (keep x), (keep y); try reflexivity. apply perm_swap.
  - now transitivity (filter keep l').
Qed.

Lemma Permutation_short {A} (l l' : list A) :
  Permutation l l' -> (List.length l' <= 1)%nat -> l = l'.
Proof.
  intros H Hlen. destruct l' as [|x [|y l']]; [| |cbn in Hlen; lia].
  - apply Permutation_nil. now symmetry.
  - apply Permutation_length_1_inv. now symmetry.
Qed.

Section LabelledRows.
Context {R : Type} (key : R -> option string) (value : R -> Z).

Lemma rows_labelled_map (rows : list R) (c : string) (ks : list string) :
  NoDup ks ->
  rows_labelled c (map (agg_row key value rows) ks)
  = if in_dec string_dec c ks then [agg_row key value rows c] else [].
Proof.
  unfold rows_labelled.
  induction 1 as [|k ks Hk Hnd IH]; [reflexivity|]. cbn [map filter category agg_row].
  rewrite IH. destruct (String.eqb_spec k c) as [->|N].
  - destruct (in_dec string_dec c (c :: ks)) as [_|H];
      [|exfalso; apply H; now left].
    destruct (in_dec string_dec c ks); [contradiction | reflexivity].
  - destruct (in_dec string_dec c ks) as [H|H],
             (in_dec string_dec c (k :: ks)) as [H'|H']; try reflexivity.
    + exfalso. apply H'. now right.
    + exfalso. destruct H' as [E|E]; [congruence | contradiction].
Qed.

(** The rows of a grouping under one label: the row of the group when the
    group has a row, none otherwise. *)
Lemma groupby_rows_labelled (rows : list R) (c : string) :
  rows_labelled c (groupby_mean key value rows)
  = match group_rows key c rows with
    | [] => []
    | _ => [agg_row key value rows c]
    end.
Proof.
  unfold groupby_mean.
  rewrite rows_labelled_map.
  2:{ apply (Permutation_NoDup (l := unique_keys key rows));
      [symmetry; apply sort_with_perm | apply NoDup_nodup]. }
  destruct (in_dec string_dec c (sort_with String.leb (unique_keys key rows)))
    as [H|H].
  - apply sort_with_In, nodup_In, present_keys_In in H.
    apply (group_rows_nonempty key) in H.
    destruct (group_rows key c rows); [congruence | reflexivity].
  - destruct (group_rows key c rows) as [|r g] eqn:E; [reflexivity|].
    exfalso. apply H. apply sort_with_In, nodup_In, present_keys_In.
    apply (group_rows_nonempty key). rewrite E. discriminate.
Qed.
End LabelledRows.

Lemma rate_rows_labelled (key : Row -> option string) (fd : list Row)
    (c : string) :
  binary_outcome fd ->
  rows_labelled c (rate_by_category key fd) = expected_rows c key c fd.
Proof.
  intros Hb. unfold rate_by_category, expected_rows.
  rewrite groupby_rows_labelled.
  destruct (group_rows key c fd) as [|r g] eqn:E.
  - unfold group_size. rewrite E. reflexivity.
  - assert (Hne : group_rows key c fd <> []) by (rewrite E; discriminate).
    assert (Hpos : (0 <? group_size key c fd) = true)
      by (unfold group_size; rewrite E; reflexivity).
    rewrite (agg_row_binary key (fun r : Row => TenYearCHD r) fd c Hb Hne).
    rewrite Hpos. reflexivity.
Qed.

(** The rows of a fixed-order aggregate under one label. *)
Lemma ordered_rows_labelled_sorted (categories : list string)
    (key : Row -> option string) (fd : list Row) (c : string) :
  binary_outcome fd ->
  ordered_rows_labelled c
    (sort_values_categorical categories (rate_by_category key fd))
  = if known categories c then expected_rows (Some c) key c fd else [].
Proof.
  intros Hb.
  assert (Hmap : ordered_rows_labelled c
                   (map (as_categorical categories) (rate_by_category key fd))
                 = if known categories c
                   then expected_rows (Some c) key c fd else []).
  { unfold ordered_rows_labelled. rewrite filter_map_swap.
    rewrite (filter_ext _ (fun a => known categories c
                                    && String.eqb (category a) c)).
    2:{ intros a. unfold as_categorical. cbn [category].
        destruct (String.eqb_spec (category a) c) as [->|N].
        - destruct (known categories c); cbn [label_eqb andb];
            [apply String.eqb_refl | reflexivity].
        - rewrite andb_false_r.
          destruct (known categories (category a)); cbn [label_eqb];
            [now apply String.eqb_neq | reflexivity]. }
    destruct (known categories c) eqn:K; cbn [andb].
    - fold (rows_labelled c (rate_by_category key fd)).
      rewrite (rate_rows_labelled key fd c Hb). unfold expected_rows.
      destruct (0 <? group_size key c fd); [|reflexivity].
      cbn [map]. unfold as_categorical, rate_row. cbn [category].
      now rewrite K.
    - now rewrite filter_false. }
  rewrite <- Hmap. apply Permutation_short.
  - apply Permutation_filter_keep, sort_values_categorical_perm.
  - rewrite Hmap. unfold expected_rows.
    destruct (known categories c), (0 <? group_size key c fd); cbn; lia.
Qed.

Lemma loaded_level_known (csv : list Subject)
    (gender_options : list (option string)) (age_range : Z * Z) (c : string) :
  known edu_order c = false ->
  group_size Education_Level c
    (filtered_data (load_data csv) gender_options age_range) = 0.
Proof.
  intros K. unfold group_size.
  destruct (group_rows Education_Level c
              (filtered_data (load_data csv) gender_options age_range))
    as [|r g] eqn:E; [reflexivity|]. exfalso.
  assert (Hr : In r (r :: g)) by now left.
  rewrite <- E in Hr. apply group_rows_In in Hr. destruct Hr as [Hr Hl].
  apply filtered_data_incl in Hr. unfold load_data in Hr.
  apply in_map_iff in Hr. destruct Hr as [s [<- _]].
  cbn [load_row Education_Level] in Hl.
  apply education_level_known in Hl. congruence.
Qed.

(** C2 (as amended): on a loaded table whose outcome is 0 or 1, each of the
    four aggregates of a run (gender, education, smoking status, blood
    pressure) has, under a label with at least one filtered row, exactly
    one row, and that row holds (rows of the group with [TenYearCHD = 1] /
    rows of the group) x 100; under a label without a filtered row it has
    no row.  For blood pressure this holds for the four labels of
    [bp_order]; a label outside them keeps its rate but is listed under a
    missing label. *)
Theorem rate_aggregates_spec (observed : bool) (csv : list Subject)
    (gender_options : list (option string)) (age_range : Z * Z)
    (c : string) :
  binary_outcome (load_data csv) ->
  let fd := filtered_data (load_data csv) gender_options age_range in
  let a := aggregate observed (load_data csv) gender_options age_range in
  let bp := fun r : Row => BP_Category r in
  rows_labelled c (agg_gender a)
  = expected_rows c (fun r : Row => gender r) c fd /\
  ordered_rows_labelled c (agg_edu a)
  = expected_rows (Some c) Education_Level c fd /\
  rows_labelled c (agg_smoke a)
  = expected_rows c (fun r : Row => Some (Smoking_Status r)) c fd /\
  ordered_rows_labelled c (agg_bp a)
  = (if known bp_order c then expected_rows (Some c) bp c fd else []) /\
  (known bp_order c = false -> 0 < group_size bp c fd ->
   In (rate_row None (group_cases bp (fun r : Row => TenYearCHD r) c fd)
                     (group_size bp c fd))
      (agg_bp a)).
Proof.
  intros Hb fd a bp. subst a. unfold aggregate. fold fd.
  cbn [agg_gender agg_edu agg_smoke agg_bp].
  assert (Hf : binary_outcome fd) by (apply binary_column_filter; exact Hb).
  split; [|split; [|split; [|split]]].
  - now apply rate_rows_labelled.
  - unfold chd_rate_edu, chd_rate_edu_grouped.
    rewrite (ordered_rows_labelled_sorted edu_order Education_Level fd c Hf).
    destruct (known edu_order c) eqn:K; [reflexivity|].
    unfold expected_rows, fd. now rewrite (loaded_level_known _ _ _ _ K).
  - now apply rate_rows_labelled.
  - unfold chd_rate_bp, chd_rate_bp_grouped.
    now apply ordered_rows_labelled_sorted.
  - intros K Hpos. unfold chd_rate_bp, chd_rate_bp_grouped.
    apply sort_values_categorical_In.
    exists (rate_row c (group_cases bp (fun r : Row => TenYearCHD r) c fd)
                       (group_size bp c fd)).
    split.
    + assert (Hin : In (rate_row c (group_cases bp
                                      (fun r : Row => TenYearCHD r) c fd)
                                   (group_size bp c fd))
                       (rows_labelled c (rate_by_category bp fd))).
      { rewrite (rate_rows_labelled bp fd c Hf). unfold expected_rows.
        rewrite (proj2 (Z.ltb_lt _ _) Hpos). now left. }
      unfold rows_labelled in Hin. now apply filter_In in Hin.
    + unfold as_categorical, rate_row. cbn [category]. now rewrite K.
Qed.

Lemma rate_aggregates_spec_witness :
  rows_labelled "Male"
    (agg_gender (aggregate false (load_data sample_csv) both_genders (40, 60)))
  = [rate_row "Male" 2 3]
  /\ ordered_rows_labelled "Elevated"
       (agg_bp (aggregate false (load_data sample_csv) both_genders (40, 60)))
     = [rate_row (Some "Elevated") 0 1].
Proof.
  pose proof (rate_aggregates_spec false sample_csv both_genders (40, 60))
    as H.
  split.
  - exact (proj1 (H "Male" sample_csv_binary)).
  - exact (proj1 (proj2 (proj2 (proj2 (H "Elevated" sample_csv_binary))))).
Defined.

(** C2 (as stated) fails in two ways.  With an outcome of 2 in the only
    row of a gender the aggregate lists 200, not (0 / 1) x 100; and a
    blood-pressure label outside [bp_order] has a row in the table but no
    row under its name in the aggregate. *)
Lemma rate_claim_fails :
  (let fd := filtered_data (load_data odd_outcome_csv) both_genders (40, 60) in
   let a := aggregate false (load_data odd_outcome_csv) both_genders (40, 60) in
   let key := fun r : Row => gender r in
   0 < group_size key "Male" fd /\
   ~ lists_rate (agg_gender a) "Male"
       (group_rate key (fun r : Row => TenYearCHD r) "Male" fd)) /\
  (let fd := filtered_data (load_data odd_label_csv) both_genders (40, 60) in
   let a := aggregate false (load_data odd_label_csv) both_genders (40, 60) in
   let key := fun r : Row => BP_Category r in
   binary_outcome (load_data odd_label_csv) /\
   0 < group_size key "Prehypertension" fd /\
   ~ lists_rate (agg_bp a) (Some "Prehypertension")
       (group_rate key (fun r : Row => TenYearCHD r) "Prehypertension" fd)).
Proof.
  split; [split; [reflexivity|] | split; [|split; [reflexivity|]]].
  - intros [a [v [Hin [Hc [Hv Hq]]]]]. vm_compute in Hin.
    destruct Hin as [<-|[<-|[]]]; [discriminate Hc|].
    injection Hv as <-. vm_compute in Hq. discriminate Hq.
  - unfold binary_outcome, binary_column. simpl.
    repeat (apply Forall_cons; [simpl; auto|]). apply Forall_nil.
  - intros [a [v [Hin [Hc _]]]]. vm_compute in Hin.
    destruct Hin as [<-|[<-|[]]]; discriminate Hc.
Qed.

Lemma sorted_rows_percent (categories : list string)
    (agg : list (AggRow string)) (P : option Q -> Prop) :
  Forall (fun a => P (CHD_Risk_pct a)) agg ->
  Forall (fun a => P (CHD_Risk_pct a)) (sort_values_categorical categories agg).
Proof.
  intros H. rewrite sort_values_categorical_perm.
  rewrite Forall_forall in *. intros a Ha.
  apply in_map_iff in Ha. destruct Ha as [a0 [<- Ha0]]. simpl. now apply H.
Qed.

Lemma rate_by_category_in_range (key : Row -> option string) (fd : list Row) :
  binary_outcome fd -> Forall percent_in_range (rate_by_category key fd).
Proof.
  intros Hb. rewrite Forall_forall. intros a Ha.
  apply (groupby_mean_row key _ fd a Hb) in Ha. destruct Ha as [Hne Hv].
  exists (group_rate key (fun r : Row => TenYearCHD r) (category a) fd).
  split; [exact Hv|]. now apply group_rate_bounds.
Qed.

Lemma smokers_df_binary (fd : list Row) :
  binary_outcome fd ->
  binary_column (fun sr : SmokerRow => TenYearCHD sr) (smokers_df fd).
Proof.
  unfold binary_outcome, binary_column. rewrite !Forall_forall.
  intros H sr Hsr. apply smokers_df_In in Hsr.
  destruct Hsr as [r [Hr [_ ->]]]. simpl. now apply H.
Qed.

Lemma intensity_row_percent (observed : bool) (fd : list Row)
    (a : AggRow string) :
  binary_outcome fd ->
  In a (chd_rate_intensity observed fd) ->
  (CHD_Risk_pct a = None /\ observed = false) \/ percent_in_range a.
Proof.
  intros Hb Ha. unfold chd_rate_intensity, groupby_categorical_mean in Ha.
  apply in_map_iff in Ha. destruct Ha as [k [<- Hk]].
  set (rows := smokers_df fd) in *.
  destruct (group_rows Smoking_Intensity k rows) as [|sr g] eqn:E.
  - left. unfold agg_row. rewrite E. simpl. split; [reflexivity|].
    destruct observed; [|reflexivity].
    apply filter_In in Hk. rewrite E in Hk. destruct Hk as [_ Hk].
    discriminate Hk.
  - right.
    assert (Hne : group_rows Smoking_Intensity k rows <> [])
      by (rewrite E; discriminate).
    rewrite (agg_row_binary Smoking_Intensity _ rows k
               (smokers_df_binary fd Hb) Hne).
    eexists. split; [reflexivity|]. now apply group_rate_bounds.
Qed.

(** C5: on a table whose outcome is 0 or 1, every percentage of the gender,
    education, smoking-status and blood-pressure aggregates lies in
    [0, 100], and so does every percentage of the smoking-intensity
    aggregate; an intensity band without a smoker, when pandas lists it
    ([observed = false]), has a missing cell and no percentage. *)
Theorem rates_within_0_100 (observed : bool) (data : list Row)
    (gender_options : list (option string)) (age_range : Z * Z) :
  binary_outcome data ->
  let a := aggregate observed data gender_options age_range in
  Forall percent_in_range (agg_gender a) /\
  Forall percent_in_range (agg_edu a) /\
  Forall percent_in_range (agg_smoke a) /\
  Forall percent_in_range (agg_bp a) /\
  Forall percent_in_range_or_nan (agg_intensity a) /\
  (observed = true -> Forall percent_in_range (agg_intensity a)).
Proof.
  intros Hb a.
  assert (Hf : binary_outcome (filtered_data data gender_options age_range))
    by (apply binary_column_filter; exact Hb).
  subst a. unfold aggregate. cbn [agg_gender agg_edu agg_smoke agg_bp agg_intensity].
  repeat split.
  - now apply rate_by_category_in_range.
  - apply (sorted_rows_percent edu_order _
             (fun v => exists q, v = Some q /\ (0 <= q)%Q /\ (q <= 100)%Q)).
    now apply rate_by_category_in_range.
  - now apply rate_by_category_in_range.
  - apply (sorted_rows_percent bp_order _
             (fun v => exists q, v = Some q /\ (0 <= q)%Q /\ (q <= 100)%Q)).
    now apply rate_by_category_in_range.
  - rewrite Forall_forall. intros r Hr v Hv.
    destruct (intensity_row_percent _ _ _ Hf Hr) as [[Hn _]|[q [Hq Hran]]].
    + congruence.
    + rewrite Hv in Hq. inversion Hq; subst. exact Hran.
  - intros ->. rewrite Forall_forall. intros r Hr.
    destruct (intensity_row_percent _ _ _ Hf Hr) as [[_ Ho]|H];
      [discriminate | exact H].
Qed.

Lemma rates_within_0_100_witness :
  Forall percent_in_range
    (agg_gender (aggregate false (load_data sample_csv) both_genders (30, 70)))
  /\ Forall percent_in_range_or_nan
       (agg_intensity
          (aggregate false (load_data sample_csv) both_genders (30, 70))).
Proof.
  pose proof sample_csv_binary as Hb.
  pose proof (rates_within_0_100 false (load_data sample_csv) both_genders
                (30, 70) Hb) as H.
  split; [exact (proj1 H) | exact (proj1 (proj2 (proj2 (proj2 (proj2 H)))))].
Defined.

(* ================================================================== *)
(** ** Fixed category orders *)
(* ================================================================== *)

Lemma groupby_categories_present {R} (key : R -> option string)
    (value : R -> Z) (rows : list R) (c : string) :
  existsb (String.eqb c) (map category (groupby_mean key value rows))
  = existsb (fun r => label_eqb (key r) (Some c)) rows.
Proof.
  apply eq_true_iff_eq. rewrite !existsb_exists. split.
  - intros [k [Hk E]]. apply String.eqb_eq in E. subst k.
    rewrite groupby_mean_categories in Hk. apply sort_with_In in Hk.
    apply nodup_In, present_keys_In in Hk. destruct Hk as [r [Hr Hc]].
    exists r. split; [exact Hr | now apply label_eqb_eq].
  - intros [r [Hr E]]. apply label_eqb_eq in E.
    exists c. split; [|apply String.eqb_refl].
    rewrite groupby_mean_categories. apply sort_with_In.
    apply nodup_In, present_keys_In. now exists r.
Qed.

Lemma edu_order_strict :
  StronglySorted (fun x y => (rank edu_order x < rank edu_order y)%nat)
                 edu_order.
Proof.
  unfold edu_order.
  repeat (apply SSorted_cons; [|repeat (apply Forall_cons; [vm_compute; lia|]);
                                apply Forall_nil]).
  apply SSorted_nil.
Qed.

Lemma bp_order_strict :
  StronglySorted (fun x y => (rank bp_order x < rank bp_order y)%nat)
                 bp_order.
Proof.
  unfold bp_order.
  repeat (apply SSorted_cons; [|repeat (apply Forall_cons; [vm_compute; lia|]);
                                apply Forall_nil]).
  apply SSorted_nil.
Qed.

(** The labels of a categorical aggregate of a table. *)
Lemma categorical_aggregate_labels (categories : list string)
    (key : Row -> option string) (fd : list Row) :
  StronglySorted (fun x y => (rank categories x < rank categories y)%nat)
                 categories ->
  map category (sort_values_categorical categories (rate_by_category key fd))
  = (map Some (filter (present key fd) categories)
     ++ repeat None (unknown_labels categories (rate_by_category key fd)))%list.
Proof.
  intros Hs. unfold rate_by_category.
  rewrite (sort_values_categorical_labels categories _ Hs
             (groupby_mean_NoDup key _ fd)).
  unfold unknown_labels. f_equal. f_equal.
  apply filter_ext. intros c. apply groupby_categories_present.
Qed.

Lemma loaded_education_known (csv : list Subject)
    (gender_options : list (option string)) (age_range : Z * Z) :
  unknown_labels edu_order
    (chd_rate_edu_grouped
       (filtered_data (load_data csv) gender_options age_range)) = O.
Proof.
  unfold unknown_labels, chd_rate_edu_grouped, rate_by_category.
  match goal with |- List.length ?l = O => assert (E : l = []) end;
    [|now rewrite E].
  match goal with |- filter ?p ?l = [] =>
    destruct (filter p l) as [|a t] eqn:E end; [reflexivity|].
  exfalso.
  assert (Ha : In a (a :: t)) by (left; reflexivity).
  rewrite <- E in Ha. apply filter_In in Ha. destruct Ha as [Ha Hk].
  apply groupby_mean_In in Ha. destruct Ha as [_ [r [Hr Hl]]].
  apply filtered_data_incl in Hr.
  unfold load_data in Hr. apply in_map_iff in Hr. destruct Hr as [s [<- _]].
  cbn [load_row Education_Level] in Hl.
  apply education_level_known in Hl. rewrite Hl in Hk. discriminate.
Qed.

(** C4: whatever the rows and their order, the education aggregate of a
    loaded table lists the education levels that occur in the order Some
    High School, High School/GED, Some College, College, and the
    blood-pressure aggregate lists the categories that occur in the order
    Normal, Elevated, Hypertension Stage 1, Hypertension Stage 2 (a label
    outside that list ends up as a NaN row after them).  The rows of the
    education aggregate are those of the grouping, only reordered: the color
    map is built from a sorted copy and leaves the aggregate alone. *)
Theorem fixed_category_orders (observed : bool) (csv : list Subject)
    (gender_options : list (option string)) (age_range : Z * Z) :
  let fd := filtered_data (load_data csv) gender_options age_range in
  let a := aggregate observed (load_data csv) gender_options age_range in
  map category (agg_edu a)
  = map Some (filter (present Education_Level fd) edu_order) /\
  map category (agg_bp a)
  = (map Some (filter (present (fun r : Row => BP_Category r) fd) bp_order)
     ++ repeat None (unknown_labels bp_order (chd_rate_bp_grouped fd)))%list /\
  Permutation (agg_edu a)
              (map (as_categorical edu_order) (chd_rate_edu_grouped fd)) /\
  agg_edu_colors a
  = combine (map category (sort_values_desc (chd_rate_edu_grouped fd)))
            CUSTOM_RED_PALETTE.
Proof.
  intros fd a. subst a. unfold aggregate. fold fd.
  cbn [agg_edu agg_bp agg_edu_colors]. split; [|split; [|split]].
  - unfold chd_rate_edu, chd_rate_edu_grouped.
    rewrite (categorical_aggregate_labels edu_order Education_Level fd
               edu_order_strict).
    fold (chd_rate_edu_grouped fd). unfold fd.
    rewrite loaded_education_known. simpl. apply app_nil_r.
  - unfold chd_rate_bp, chd_rate_bp_grouped.
    apply (categorical_aggregate_labels bp_order _ fd bp_order_strict).
  - apply sort_values_categorical_perm.
  - reflexivity.
Qed.

(* ================================================================== *)
(** ** Empty selections and repeated runs *)
(* ================================================================== *)

(** C7 (as amended): when the filter keeps no row, the gender, education,
    smoking-status and blood-pressure aggregates, the age list and the BMI
    and cholesterol groups are empty, and nothing raises.  The
    smoking-intensity aggregate is empty when pandas lists observed
    categories only; otherwise it lists the three bands, each with a missing
    rate. *)
Theorem empty_filter_aggregates (observed : bool) (data : list Row)
    (gender_options : list (option string)) (age_range : Z * Z) :
  filtered_data data gender_options age_range = [] ->
  let a := aggregate observed data gender_options age_range in
  agg_gender a = [] /\ agg_age a = [] /\ agg_edu a = [] /\
  agg_edu_colors a = [] /\ agg_smoke a = [] /\
  agg_bmi a = ([], []) /\ agg_chol a = ([], []) /\ agg_bp a = [] /\
  agg_intensity a = if observed then [] else nan_bands.
Proof.
  intros H a. subst a. unfold aggregate. rewrite H.
  destruct observed; repeat split; reflexivity.
Qed.

Lemma empty_filter_aggregates_witness :
  agg_gender (aggregate true (load_data sample_csv) both_genders (90, 95)) = []
  /\ agg_intensity
       (aggregate false (load_data sample_csv) both_genders (90, 95))
     = nan_bands.
Proof.
  split.
  - exact (proj1 (empty_filter_aggregates true (load_data sample_csv)
                    both_genders (90, 95) eq_refl)).
  - exact (proj2 (proj2 (proj2 (proj2 (proj2 (proj2 (proj2 (proj2
             (empty_filter_aggregates false (load_data sample_csv)
                both_genders (90, 95) eq_refl))))))))).
Defined.

(** C7 (as stated) fails before pandas 3.0: the age range 90-95 keeps no
    row of the sample, yet the smoking-intensity aggregate has three
    rows. *)
Lemma empty_filter_intensity_not_empty :
  filtered_data (load_data sample_csv) both_genders (90, 95) = [] /\
  ~ all_empty (aggregate false (load_data sample_csv) both_genders (90, 95)).
Proof.
  split; [reflexivity|].
  intros [_ [_ [_ [_ [H _]]]]]. vm_compute in H. discriminate H.
Qed.

Import Script.

Lemma insert_sorted_ext {A} (leb1 leb2 : A -> A -> bool) (x : A) (l : list A) :
  (forall a b, leb1 a b = leb2 a b) ->
  insert_sorted leb1 x l = insert_sorted leb2 x l.
Proof.
  intros H. induction l as [|y l IH]; [reflexivity|].
  cbn [insert_sorted]. rewrite H, IH. reflexivity.
Qed.

Lemma sort_with_ext {A} (leb1 leb2 : A -> A -> bool) (l : list A) :
  (forall a b, leb1 a b = leb2 a b) -> sort_with leb1 l = sort_with leb2 l.
Proof.
  intros H. induction l as [|x l IH]; [reflexivity|].
  cbn [sort_with]. rewrite IH. now apply insert_sorted_ext.
Qed.

Lemma insert_sorted_map {A B} (f : A -> B) (leb : B -> B -> bool) (x : A)
    (l : list A) :
  insert_sorted leb (f x) (map f l)
  = map f (insert_sorted (fun a b => leb (f a) (f b)) x l).
Proof.
  induction l as [|y l IH]; [reflexivity|]. cbn [map insert_sorted].
  destruct (leb (f x) (f y)); [reflexivity|]. cbn [map]. now rewrite IH.
Qed.

Lemma sort_with_map {A B} (f : A -> B) (leb : B -> B -> bool) (l : list A) :
  sort_with leb (map f l)
  = map f (sort_with (fun a b => leb (f a) (f b)) l).
Proof.
  induction l as [|x l IH]; [reflexivity|]. cbn [map sort_with].
  rewrite IH. apply insert_sorted_map.
Qed.

(** The percent column added in place gives the rows of the grouping. *)
Lemma with_percent_group_means {R} (key : R -> option string)
    (value : R -> Z) (rows : list R) :
  map with_percent (group_means key value rows) = groupby_mean key value rows.
Proof. unfold group_means, groupby_mean. now rewrite map_map. Qed.

Lemma with_percent_categorical_means {R} (observed : bool)
    (categories : list string) (key : R -> option string) (value : R -> Z)
    (rows : list R) :
  map with_percent (categorical_means observed categories key value rows)
  = groupby_categorical_mean key value observed categories rows.
Proof.
  unfold categorical_means, groupby_categorical_mean. now rewrite map_map.
Qed.

Lemma label_rank_as_categorical (categories : list string)
    (a : AggRow string) :
  label_rank categories (category (as_categorical categories a))
  = rank categories (category a).
Proof.
  unfold as_categorical, known, rank, label_rank. cbn [category].
  destruct (code categories (category a)) eqn:E; cbn [label_rank].
  - unfold rank. now rewrite E.
  - reflexivity.
Qed.

(** Sorting after the labels were made categorical in place gives the rows
    in the fixed order. *)
Lemma sort_ordered_as_categorical (categories : list string)
    (agg : list (AggRow string)) :
  sort_ordered categories (map (as_categorical categories) agg)
  = sort_values_categorical categories agg.
Proof.
  unfold sort_ordered, sort_values_categorical.
  rewrite !filter_map_swap, sort_with_map, map_app. f_equal.
  - f_equal.
    rewrite (filter_ext _ (fun a => known categories (category a)))
      by (intros a; unfold as_categorical; cbn [category];
          now destruct (known categories (category a))).
    apply sort_with_ext. intros a b.
    now rewrite !label_rank_as_categorical.
  - f_equal. apply filter_ext. intros a. unfold as_categorical.
    cbn [category]. now destruct (known categories (category a)).
Qed.

(** The script, run on the table as its first object, computes the
    aggregates of [aggregate] and leaves the table as it was loaded. *)
Lemma pipeline_aggregate (observed : bool) (table : list Row)
    (gender_options : list (option string)) (age_range : Z * Z) :
  exists h,
    (data <- new_frame (Table table) ;;
     pipeline observed data gender_options age_range) []
    = Some (aggregate observed table gender_options age_range, h)
    /\ nth_error h 0 = Some (Table table).
Proof.
  eexists. split.
  - cbv [pipeline bind new_frame select_rows copy_frame groupby_mean_of
           groupby_intensity_of set_percent set_intensity set_categorical
           sort_by_category sort_by_risk rates_of ordered_rates_of column_of
           frame_at store_frame ret raise
           List.length app nth_error replace_frame].
    rewrite !with_percent_group_means, with_percent_categorical_means,
      !sort_ordered_as_categorical.
    reflexivity.
  - reflexivity.
Qed.


Lemma run_script_open (observed : bool) (csv : list Subject)
    (gender_options : list (option string)) (age_range : Z * Z)
    (risk_factor : RiskFactor) (w : World) :
  check_password (session w) = true ->
  run_script observed csv gender_options age_range risk_factor w
  = (snd (cached_load_data csv w),
     let table := fst (cached_load_data csv w) in
     let a := aggregate observed table gender_options age_range in
     match default_age_range table with
     | Some _ => shown a (layout a risk_factor)
     | None => raised
     end).
Proof.
  intros H. unfold run_script. rewrite H.
  destruct (cached_load_data csv w) as [table w']. cbn [fst snd].
  destruct (default_age_range table); [|reflexivity].
  destruct (pipeline_aggregate observed table gender_options age_range)
    as [h [E _]].
  now rewrite E.
Qed.

Lemma run_script_closed (observed : bool) (csv : list Subject)
    (gender_options : list (option string)) (age_range : Z * Z)
    (risk_factor : RiskFactor) (w : World) :
  check_password (session w) = false ->
  run_script observed csv gender_options age_range risk_factor w
  = (mkWorld (draw_password_box (session w)) (cache w), stopped).
Proof. intros H. unfold run_script. now rewrite H. Qed.

Lemma cached_load_data_again (csv csv' : list Subject) (w : World) :
  cached_load_data csv' (snd (cached_load_data csv w))
  = cached_load_data csv w /\
  session (snd (cached_load_data csv w)) = session w.
Proof.
  unfold cached_load_data. destruct (cache w) eqn:E; cbn [snd fst cache session].
  - now rewrite E.
  - split; reflexivity.
Qed.




(* ================================================================== *)
(** ** Access gate *)
(* ================================================================== *)

Lemma text_input_change_cases (p : string) (s : SessionState) :
  (p = box_value s /\ text_input_change p s = s) \/
  (p <> box_value s /\ p = "CHD2025" /\
   text_input_change p s = mkSession None (Some true)) \/
  (p <> box_value s /\ p <> "CHD2025" /\
   text_input_change p s = mkSession (Some p) (Some false)).
Proof.
  unfold text_input_change, password_entered.
  destruct (String.eqb_spec p (box_value s)) as [E|N]; [now left | right].
  cbn [password password_correct].
  destruct (String.eqb_spec p "CHD2025"); auto.
Qed.

(** X1: an entry that leaves the text of the password box as it was fires
    no callback and changes nothing.  After any other entry the gate is
    open exactly when the entry is "CHD2025"; the right password is then
    removed from the session state, a wrong one stays there with the flag
    set to false. *)
Theorem gate_after_entry (p : string) (s : SessionState) :
  let s' := text_input_change p s in
  (p = box_value s -> s' = s) /\
  (p <> box_value s ->
   (check_password s' = true <-> p = "CHD2025") /\
   (p = "CHD2025" -> password s' = None) /\
   (p <> "CHD2025" ->
    password s' = Some p /\ password_correct s' = Some false)).
Proof.
  intros s'. subst s'.
  destruct (text_input_change_cases p s) as [[E ->]|[[N [E ->]]|[N [E ->]]]];
    unfold check_password; cbn [password password_correct].
  - split; [reflexivity | contradiction].
  - split; [contradiction|]. intros _.
    split; [tauto|]. split; [reflexivity | contradiction].
  - split; [contradiction|]. intros _.
    split; [split; [discriminate | contradiction]|].
    split; [contradiction | auto].
Qed.

Lemma gate_after_entry_witness :
  password (text_input_change "CHD2025" fresh_session) = None
  /\ password_correct (text_input_change "chd2025" fresh_session) = Some false
  /\ text_input_change "" fresh_session = fresh_session.
Proof.
  split; [|split].
  - apply (proj2 (gate_after_entry "CHD2025" fresh_session));
      [intros H; discriminate H | reflexivity].
  - apply (proj2 (gate_after_entry "chd2025" fresh_session));
      intros H; discriminate H.
  - exact (proj1 (gate_after_entry "" fresh_session) eq_refl).
Defined.

Lemma session_fold_gate (entries : list string) (s : SessionState) :
  password s <> Some "CHD2025" ->
  (check_password (fold_left session_step entries s) = true <->
   check_password s = true \/ In "CHD2025" entries) /\
  password (fold_left session_step entries s) <> Some "CHD2025".
Proof.
  revert s. induction entries as [|p entries IH]; intros s Hs; cbn [fold_left].
  - split; [simpl; tauto | exact Hs].
  - assert (Hbox : box_value s <> "CHD2025").
    { unfold box_value. destruct (password s); [congruence | discriminate]. }
    assert (Hstep : password (session_step s p) <> Some "CHD2025").
    { unfold session_step. destruct (check_password s); [exact Hs|].
      destruct (text_input_change_cases p s)
        as [[E ->]|[[N [E ->]]|[N [E ->]]]];
        cbn [password]; congruence. }
    destruct (IH _ Hstep) as [IH1 IH2]. split; [|exact IH2].
    rewrite IH1. unfold session_step.
    destruct (check_password s) eqn:C.
    + simpl. tauto.
    + destruct (text_input_change_cases p s)
        as [[E ->]|[[N [E ->]]|[N [E ->]]]].
      * rewrite C. cbn [In]. split; [tauto|].
        intros [H|[H|H]]; [discriminate | congruence | auto].
      * unfold check_password; cbn [password_correct In]. split; auto.
      * unfold check_password; cbn [password_correct In]. split.
        -- intros [H|H]; [discriminate | auto].
        -- intros [H|[H|H]]; [discriminate | congruence | auto].
Qed.


(* ================================================================== *)
(** ** Loader: derived columns *)
(* ================================================================== *)

(** X3: [load_data] keeps every line of the CSV, in order and with its
    columns unchanged; the status it adds is "Current Smoker" exactly for
    [currentSmoker = 1] and "Non-Smoker" otherwise, and the education level
    it adds is missing or one of the four labels of [edu_order]. *)
Theorem load_data_columns (csv : list Subject) :
  map (fun r : Row => subject r) (load_data csv) = csv /\
  Forall (fun r : Row =>
            (currentSmoker r = 1 /\ Smoking_Status r = "Current Smoker") \/
            (currentSmoker r <> 1 /\ Smoking_Status r = "Non-Smoker"))
         (load_data csv) /\
  Forall (fun r : Row =>
            Education_Level r = None \/
            exists l, Education_Level r = Some l /\ In l edu_order)
         (load_data csv).
Proof.
  unfold load_data. split; [|split].
  - rewrite map_map. cbn [load_row subject]. apply map_id.
  - rewrite Forall_forall. intros r Hr. apply in_map_iff in Hr.
    destruct Hr as [s [<- _]]. cbn [load_row subject Smoking_Status].
    unfold smoking_status. destruct (Z.eqb_spec (currentSmoker s) 1); auto.
  - rewrite Forall_forall. intros r Hr. apply in_map_iff in Hr.
    destruct Hr as [s [<- _]]. cbn [load_row Education_Level].
    destruct (education_level (education s)) as [l|] eqn:E; [right | now left].
    exists l. split; [reflexivity|].
    apply education_level_known in E. now apply known_In in E.
Qed.

(* ================================================================== *)
(** ** Sidebar: defaults and selections *)
(* ================================================================== *)

Lemma unique_In (values : list (option string)) (x : option string) :
  In x (unique values) <-> In x values.
Proof.
  induction values as [|v rest IH]; [reflexivity|].
  cbn [unique In]. rewrite filter_In, IH. split.
  - intros [H|[H _]]; auto.
  - intros [H|H]; [now left|].
    destruct (label_eqb v x) eqn:E.
    + left. now apply label_eqb_eq.
    + right. split; [exact H | reflexivity].
Qed.

Lemma unique_NoDup (values : list (option string)) : NoDup (unique values).
Proof.
  induction values as [|v rest IH]; cbn [unique]; constructor.
  - intros H. apply filter_In in H. destruct H as [_ H].
    rewrite (proj2 (label_eqb_eq v v) eq_refl) in H. discriminate.
  - now apply NoDup_filter.
Qed.

Lemma fold_min_le (xs : list Z) (x : Z) :
  fold_left Z.min xs x <= x /\
  forall y, In y xs -> fold_left Z.min xs x <= y.
Proof.
  revert x. induction xs as [|z xs IH]; intros x; cbn [fold_left].
  - split; [lia | intros y []].
  - destruct (IH (Z.min x z)) as [H1 H2]. split; [lia|].
    intros y [<-|Hy]; [lia | now apply H2].
Qed.

Lemma fold_max_ge (xs : list Z) (x : Z) :
  x <= fold_left Z.max xs x /\
  forall y, In y xs -> y <= fold_left Z.max xs x.
Proof.
  revert x. induction xs as [|z xs IH]; intros x; cbn [fold_left].
  - split; [lia | intros y []].
  - destruct (IH (Z.max x z)) as [H1 H2]. split; [lia|].
    intros y [<-|Hy]; [lia | now apply H2].
Qed.

Lemma filter_keeps_all {A} (keep : A -> bool) (xs : list A) :
  (forall x, In x xs -> keep x = true) -> filter keep xs = xs.
Proof.
  induction xs as [|x xs IH]; intros H; [reflexivity|].
  cbn [filter]. rewrite (H x (or_introl eq_refl)). f_equal.
  apply IH. intros y Hy. apply H. now right.
Qed.

Lemma fold_min_const (xs : list Z) (x : Z) :
  (forall y, In y xs -> y = x) -> fold_left Z.min xs x = x.
Proof.
  induction xs as [|z xs IH]; intros H; cbn [fold_left]; [reflexivity|].
  rewrite (H z (or_introl eq_refl)), Z.min_id.
  apply IH. intros y Hy. apply H. now right.
Qed.

Lemma fold_max_const (xs : list Z) (x : Z) :
  (forall y, In y xs -> y = x) -> fold_left Z.max xs x = x.
Proof.
  induction xs as [|z xs IH]; intros H; cbn [fold_left]; [reflexivity|].
  rewrite (H z (or_introl eq_refl)), Z.max_id.
  apply IH. intros y Hy. apply H. now right.
Qed.

Lemma age_bounds (r : Row) (data : list Row) (x : Row) :
  In x (r :: data) ->
  fold_left Z.min (map (fun r : Row => age r) data) (age r) <= age x /\
  age x <= fold_left Z.max (map (fun r : Row => age r) data) (age r).
Proof.
  intros Hx.
  pose proof (fold_min_le (map (fun r : Row => age r) data) (age r))
    as [Hlo1 Hlo2].
  pose proof (fold_max_ge (map (fun r : Row => age r) data) (age r))
    as [Hhi1 Hhi2].
  destruct Hx as [<-|Hx]; [lia|].
  split; [apply Hlo2 | apply Hhi2];
    exact (in_map (fun r : Row => age r) _ _ Hx).
Qed.

(** X4: the sidebar has its defaults exactly when two rows of the table
    differ in age (the slider cannot be built on a table without rows or
    with one age only).  The gender options list each gender once, and with
    the defaults (every gender of the table, the ages from the smallest to
    the largest) the filter keeps the whole table. *)
Theorem default_selection_keeps_all (data : list Row) :
  (default_age_range data = None <->
   forall r1 r2 : Row, In r1 data -> In r2 data -> age r1 = age r2) /\
  NoDup (default_gender_options data) /\
  forall age_range, default_age_range data = Some age_range ->
    fst age_range < snd age_range /\
    filtered_data data (default_gender_options data) age_range = data.
Proof.
  unfold default_age_range, default_gender_options. split; [|split].
  - destruct data as [|r data]; [cbn; split; [intros _ r1 r2 [] | reflexivity]|].
    cbn [map column_min column_max].
    pose proof (age_bounds r data) as Hb.
    destruct (Z.ltb_spec
                (fold_left Z.min (map (fun r : Row => age r) data) (age r))
                (fold_left Z.max (map (fun r : Row => age r) data) (age r)))
      as [Hlt|Hge]; split.
    + discriminate.
    + intros Hall. exfalso.
      assert (Hc : forall y, In y (map (fun r : Row => age r) data) ->
                             y = age r).
      { intros y Hy. apply in_map_iff in Hy. destruct Hy as [x [<- Hx]].
        apply Hall; [now right | now left]. }
      rewrite (fold_min_const _ _ Hc), (fold_max_const _ _ Hc) in Hlt. lia.
    + intros _ r1 r2 H1 H2.
      destruct (Hb r1 H1), (Hb r2 H2). lia.
    + reflexivity.
  - apply unique_NoDup.
  - intros age_range H. destruct data as [|r data]; [discriminate|].
    cbn [map column_min column_max] in H.
    destruct (Z.ltb_spec
                (fold_left Z.min (map (fun r : Row => age r) data) (age r))
                (fold_left Z.max (map (fun r : Row => age r) data) (age r)))
      as [Hlt|Hge]; [|discriminate].
    inversion H; subst; clear H. cbn [fst snd]. split; [exact Hlt|].
    unfold filtered_data. apply filter_keeps_all. intros x Hx.
    apply andb_true_iff. split.
    + apply isin_In, unique_In.
      exact (in_map (fun r : Row => gender r) _ _ Hx).
    + apply between_spec. cbn [fst snd]. now apply age_bounds.
Qed.

Lemma default_selection_keeps_all_witness :
  filtered_data (load_data sample_csv)
                (default_gender_options (load_data sample_csv)) (40, 60)
  = load_data sample_csv
  /\ default_age_range [smoker_with 9; smoker_with 10] = None.
Proof.
  split.
  - exact (proj2 (proj2 (proj2 (default_selection_keeps_all
                                  (load_data sample_csv)))
                    (40, 60) eq_refl)).
  - apply (proj1 (default_selection_keeps_all [smoker_with 9; smoker_with 10])).
    intros r1 r2 [<-|[<-|[]]] [<-|[<-|[]]]; reflexivity.
Defined.

(** X5: narrowing a selection gives the same rows as filtering the result
    of the wider selection again: a gender list within the wider one and an
    age range within the wider one. *)
Theorem narrowed_selection (data : list Row)
    (wide narrow : list (option string)) (wide_range narrow_range : Z * Z) :
  (forall g, In g narrow -> In g wide) ->
  fst wide_range <= fst narrow_range ->
  snd narrow_range <= snd wide_range ->
  filtered_data (filtered_data data wide wide_range) narrow narrow_range
  = filtered_data data narrow narrow_range.
Proof.
  intros Hg Hlo Hhi. unfold filtered_data.
  induction data as [|r data IH]; [reflexivity|]. cbn [filter].
  destruct (isin (gender r) narrow
            && between (age r) (fst narrow_range) (snd narrow_range)) eqn:N.
  - apply andb_true_iff in N. destruct N as [N1 N2].
    apply isin_In in N1. apply between_spec in N2.
    assert (W : isin (gender r) wide
                && between (age r) (fst wide_range) (snd wide_range) = true).
    { apply andb_true_iff. split; [apply isin_In; auto|].
      apply between_spec. lia. }
    rewrite W. cbn [filter].
    rewrite (proj2 (andb_true_iff _ _)
               (conj (proj2 (isin_In _ _) N1) (proj2 (between_spec _ _ _) N2))).
    now f_equal.
  - destruct (isin (gender r) wide
              && between (age r) (fst wide_range) (snd wide_range));
      [cbn [filter]; rewrite N|]; exact IH.
Qed.

Lemma narrowed_selection_witness :
  filtered_data (filtered_data (load_data sample_csv) both_genders (30, 70))
                [Some "Male"] (40, 50)
  = filtered_data (load_data sample_csv) [Some "Male"] (40, 50).
Proof.
  apply narrowed_selection; simpl; [intros g [<-|[]]; auto | lia | lia].
Defined.

(** X6: a selection without a gender, or with the lower age bound above
    the upper one, keeps no row. *)
Theorem void_selection (data : list Row)
    (gender_options : list (option string)) (age_range : Z * Z) :
  gender_options = [] \/ snd age_range < fst age_range ->
  filtered_data data gender_options age_range = [].
Proof.
  intros H. unfold filtered_data.
  induction data as [|r data IH]; [reflexivity|]. cbn [filter].
  replace (isin (gender r) gender_options
           && between (age r) (fst age_range) (snd age_range)) with false;
    [exact IH|].
  symmetry. apply andb_false_iff. destruct H as [->|H]; [now left|].
  right. unfold between. apply andb_false_iff.
  destruct (Z.leb_spec (fst age_range) (age r)); [right | now left].
  apply Z.leb_gt. lia.
Qed.

Lemma void_selection_witness :
  filtered_data (load_data sample_csv) both_genders (60, 40) = [].
Proof.
  apply void_selection. right. simpl. lia.
Defined.

(* ================================================================== *)
(** ** Risk subset and distributions *)
(* ================================================================== *)

Lemma filter_filter_and {A} (f g : A -> bool) (xs : list A) :
  filter g (filter f xs) = filter (fun x => g x && f x) xs.
Proof.
  induction xs as [|x xs IH]; [reflexivity|]. cbn [filter].
  destruct (f x); cbn [filter]; destruct (g x); cbn [andb];
    rewrite ?IH; reflexivity.
Qed.

Lemma selected_case_spec (gender_options : list (option string))
    (age_range : Z * Z) (r : Row) :
  selected_case gender_options age_range r = true <->
  TenYearCHD r = 1 /\ In (gender r) gender_options /\
  fst age_range <= age r <= snd age_range.
Proof.
  unfold selected_case.
  rewrite !andb_true_iff, Z.eqb_eq, !Z.leb_le.
  fold (isin (gender r) gender_options). rewrite isin_In. tauto.
Qed.

(** X7: the age histogram gets one age per row of the table that has
    [TenYearCHD = 1], a selected gender and an age in the selected range:
    the ages of exactly those rows, in the order of the table and as often
    as they occur. *)
Theorem age_histogram_rows (observed : bool) (data : list Row)
    (gender_options : list (option string)) (age_range : Z * Z) :
  agg_age (aggregate observed data gender_options age_range)
  = map (fun r : Row => age r)
        (filter (selected_case gender_options age_range) data) /\
  forall r : Row,
    selected_case gender_options age_range r = true <->
    TenYearCHD r = 1 /\ In (gender r) gender_options /\
    fst age_range <= age r <= snd age_range.
Proof.
  split; [|apply selected_case_spec].
  unfold aggregate, risk_data, filtered_data. cbn [agg_age].
  rewrite filter_filter_and. f_equal. apply filter_ext. intros r.
  unfold selected_case, isin, between.
  now rewrite <- !andb_assoc.
Qed.

Lemma filter_split_perm {A} (yes no : A -> bool) (xs : list A) :
  (forall x, In x xs -> no x = negb (yes x)) ->
  Permutation xs (filter no xs ++ filter yes xs).
Proof.
  induction xs as [|x xs IH]; intros H; [reflexivity|]. cbn [filter].
  rewrite (H x (or_introl eq_refl)).
  assert (IH' := IH (fun y Hy => H y (or_intror Hy))).
  destruct (yes x); cbn [negb].
  - now apply Permutation_cons_app.
  - cbn. now constructor.
Qed.

(** X8: on a table whose outcome is 0 or 1, the two groups of the BMI box
    plot, and those of the cholesterol box plot, split the filtered rows:
    together they hold the value of every filtered row exactly once; the
    CHD groups have as many values as the age histogram. *)
Theorem distribution_groups_split (observed : bool) (data : list Row)
    (gender_options : list (option string)) (age_range : Z * Z) :
  binary_outcome data ->
  let fd := filtered_data data gender_options age_range in
  let a := aggregate observed data gender_options age_range in
  Permutation (map (fun r : Row => BMI r) fd)
              (fst (agg_bmi a) ++ snd (agg_bmi a)) /\
  Permutation (map (fun r : Row => totChol r) fd)
              (fst (agg_chol a) ++ snd (agg_chol a)) /\
  List.length (snd (agg_bmi a)) = List.length (agg_age a) /\
  List.length (snd (agg_chol a)) = List.length (agg_age a).
Proof.
  intros Hb fd a. subst a. unfold aggregate. fold fd.
  cbn [agg_bmi agg_chol agg_age fst snd]. unfold bmi_group, chol_group, risk_data.
  assert (Hf : binary_outcome fd) by (apply binary_column_filter; exact Hb).
  assert (Hs : Permutation fd
                 (filter (fun r : Row => TenYearCHD r =? 0) fd
                  ++ filter (fun r : Row => TenYearCHD r =? 1) fd)).
  { apply filter_split_perm. intros r Hr.
    unfold binary_outcome, binary_column in Hf. rewrite Forall_forall in Hf.
    destruct (Hf r Hr) as [E|E]; rewrite E; reflexivity. }
  repeat split.
  - rewrite <- map_app. now apply Permutation_map.
  - rewrite <- map_app. now apply Permutation_map.
  - now rewrite !length_map.
  - now rewrite !length_map.
Qed.

Lemma distribution_groups_split_witness :
  let a := aggregate false (load_data sample_csv) both_genders (30, 70) in
  List.length (snd (agg_bmi a)) = List.length (agg_age a).
Proof.
  exact (proj1 (proj2 (proj2 (distribution_groups_split
                                false (load_data sample_csv) both_genders
                                (30, 70) sample_csv_binary)))).
Defined.

(* ================================================================== *)
(** ** Smoking status and the smokers' table *)
(* ================================================================== *)

Lemma filtered_loaded_status (csv : list Subject)
    (gender_options : list (option string)) (age_range : Z * Z) (r : Row) :
  In r (filtered_data (load_data csv) gender_options age_range) ->
  Smoking_Status r = smoking_status (currentSmoker r).
Proof.
  intros H. apply filtered_data_incl in H. unfold load_data in H.
  apply in_map_iff in H. destruct H as [s [<- _]]. reflexivity.
Qed.

(** X9: on a loaded table the rows behind the "Current Smoker" bar are
    exactly the rows of [smokers_df], in the same order, and the two status
    groups together hold every filtered row once. *)
Theorem current_smokers_are_smokers_df (csv : list Subject)
    (gender_options : list (option string)) (age_range : Z * Z) :
  let fd := filtered_data (load_data csv) gender_options age_range in
  let status := fun r : Row => Some (Smoking_Status r) in
  map (fun sr : SmokerRow => row sr) (smokers_df fd)
  = group_rows status "Current Smoker" fd /\
  Permutation fd (group_rows status "Non-Smoker" fd
                  ++ group_rows status "Current Smoker" fd).
Proof.
  intros fd status.
  assert (Hc : forall r, In r fd ->
                 label_eqb (status r) (Some "Current Smoker")
                 = (currentSmoker r =? 1)).
  { intros r Hr. unfold status.
    rewrite (filtered_loaded_status csv gender_options age_range r Hr).
    unfold smoking_status. now destruct (currentSmoker r =? 1). }
  assert (Hn : forall r, In r fd ->
                 label_eqb (status r) (Some "Non-Smoker")
                 = negb (label_eqb (status r) (Some "Current Smoker"))).
  { intros r Hr. unfold status.
    rewrite (filtered_loaded_status csv gender_options age_range r Hr).
    unfold smoking_status. now destruct (currentSmoker r =? 1). }
  split.
  - unfold smokers_df, group_rows. rewrite map_map. cbn [row].
    rewrite map_id. symmetry. now apply filter_ext_in.
  - unfold group_rows. now apply filter_split_perm.
Qed.

(* ================================================================== *)
(** ** Bands of the smoking intensity *)
(* ================================================================== *)

Ltac band_iff q :=
  split;
  [ let Hband := fresh "Hband" in
    intros Hband; try discriminate Hband; exists q;
    repeat split; try reflexivity; lra
  | let q' := fresh "q" in
    let Hc := fresh "Hc" in
    let Hq := fresh "Hq" in
    intros [q' [Hc [? ?]]]; injection Hc as Hq; subst;
    try reflexivity; exfalso; lra ].

Ltac nan_iff q :=
  split;
  [ let Hn := fresh "Hn" in
    intros Hn; try discriminate Hn; right; exists q;
    (split; [reflexivity|]); first [left; lra | right; lra]
  | let q' := fresh "q" in
    let Hc := fresh "Hc" in
    let Hn := fresh "Hn" in
    let Hq := fresh "Hq" in
    intros [Hn|[q' [Hc Hn]]]; [discriminate Hn|];
    injection Hc as Hq; subst; try reflexivity;
    exfalso; destruct Hn; lra ].

(** X10: the label of a smoker is "Light (1-9)" exactly for
    0 <= cigsPerDay < 9, "Moderate (10-19)" exactly for
    9 <= cigsPerDay < 19 and "Heavy (20+)" exactly for
    19 <= cigsPerDay < 70; it is missing exactly when [cigsPerDay] is
    missing, negative or at least 70. *)
Theorem intensity_bands (c : option Q) :
  (smoking_intensity c = Some "Light (1-9)" <->
   exists q, c = Some q /\ (0 <= q)%Q /\ (q < 9)%Q) /\
  (smoking_intensity c = Some "Moderate (10-19)" <->
   exists q, c = Some q /\ (9 <= q)%Q /\ (q < 19)%Q) /\
  (smoking_intensity c = Some "Heavy (20+)" <->
   exists q, c = Some q /\ (19 <= q)%Q /\ (q < 70)%Q) /\
  (smoking_intensity c = None <->
   c = None \/ exists q, c = Some q /\ ((q < 0)%Q \/ (70 <= q)%Q)).
Proof.
  destruct c as [q|].
  - rewrite smoking_intensity_bands.
    destruct (Qle_bool 0 q) eqn:E0;
      [apply Qle_bool_iff in E0 | apply Qle_bool_false in E0];
    (destruct (Qle_bool 9 q) eqn:E9;
      [apply Qle_bool_iff in E9 | apply Qle_bool_false in E9]);
    (destruct (Qle_bool 19 q) eqn:E19;
      [apply Qle_bool_iff in E19 | apply Qle_bool_false in E19]);
    (destruct (Qle_bool 70 q) eqn:E70;
      [apply Qle_bool_iff in E70 | apply Qle_bool_false in E70]);
    cbn [andb negb];
    (split; [band_iff q | split; [band_iff q | split; [band_iff q|nan_iff q]]]).
  - cbn. repeat split; try discriminate; auto;
      intros [q [Hc _]]; discriminate Hc.
Qed.

Lemma band_rows_cons (l : string) (r : Row) (fd : list Row) :
  band_rows l (r :: fd)
  = if (currentSmoker r =? 1)
       && label_eqb (smoking_intensity (cigsPerDay r)) (Some l)
    then mkSmoker r (smoking_intensity (cigsPerDay r)) :: band_rows l fd
    else band_rows l fd.
Proof.
  unfold band_rows, smokers_df, group_rows. cbn [filter].
  destruct (currentSmoker r =? 1); cbn [map filter andb Smoking_Intensity];
    reflexivity.
Qed.

(** X11: every smoker with [cigsPerDay] in [0, 70) is in exactly one of
    the three bands, and nobody else is in a band: the sizes of the bands
    add up to the number of those smokers, and no row is in two bands. *)
Theorem bands_split_the_banded_smokers (fd : list Row) :
  (List.length (band_rows "Light (1-9)" fd)
   + List.length (band_rows "Moderate (10-19)" fd)
   + List.length (band_rows "Heavy (20+)" fd)
   = List.length (filter banded_smoker fd))%nat /\
  forall (l1 l2 : string) (sr : SmokerRow),
    In sr (band_rows l1 fd) -> In sr (band_rows l2 fd) -> l1 = l2.
Proof.
  split.
  - induction fd as [|r fd IH]; [reflexivity|].
    rewrite !band_rows_cons. cbn [filter]. unfold banded_smoker at 1.
    destruct (currentSmoker r =? 1); cbn [andb]; [|exact IH].
    destruct (cigsPerDay r) as [q|]; [|exact IH].
    rewrite smoking_intensity_bands.
    destruct (Qle_bool 0 q) eqn:E0;
      [apply Qle_bool_iff in E0 | apply Qle_bool_false in E0];
    (destruct (Qle_bool 9 q) eqn:E9;
      [apply Qle_bool_iff in E9 | apply Qle_bool_false in E9]);
    (destruct (Qle_bool 19 q) eqn:E19;
      [apply Qle_bool_iff in E19 | apply Qle_bool_false in E19]);
    (destruct (Qle_bool 70 q) eqn:E70;
      [apply Qle_bool_iff in E70 | apply Qle_bool_false in E70]);
    cbn [andb negb label_eqb String.eqb Ascii.eqb Bool.eqb List.length];
    first [lia | exfalso; lra].
  - intros l1 l2 sr H1 H2. unfold band_rows in *.
    apply group_rows_In in H1, H2. destruct H1 as [_ H1], H2 as [_ H2].
    congruence.
Qed.

Lemma bands_split_the_banded_smokers_witness :
  "Light (1-9)" = "Light (1-9)".
Proof.
  apply (proj2 (bands_split_the_banded_smokers [smoker_with 5])
           "Light (1-9)" "Light (1-9)"
           (mkSmoker (smoker_with 5) (Some "Light (1-9)")));
    left; reflexivity.
Defined.

Lemma agg_row_has_value {R} (key : R -> option string) (value : R -> Z)
    (rows : list R) (k : string) :
  has_value (CHD_Risk_pct (agg_row key value rows k))
  = match group_rows key k rows with [] => false | _ => true end.
Proof.
  unfold agg_row. cbn [CHD_Risk_pct].
  destruct (group_rows key k rows); reflexivity.
Qed.

(** X12: the two defaults of pandas differ by the empty bands only: the
    aggregate that lists observed bands is the other one without its rows
    whose rate is missing, so both hand the same bars to the chart. *)
Theorem observed_bands_are_the_valued_rows (fd : list Row) :
  chd_rate_intensity true fd
  = filter (fun a => has_value (CHD_Risk_pct a)) (chd_rate_intensity false fd).
Proof.
  unfold chd_rate_intensity, groupby_categorical_mean.
  induction labels as [|l ls IH]; [reflexivity|].
  cbn [filter map]. rewrite agg_row_has_value.
  destruct (group_rows Smoking_Intensity l (smokers_df fd));
    [|cbn [map]; f_equal]; exact IH.
Qed.

(* ================================================================== *)
(** ** Row order of a grouping *)
(* ================================================================== *)

Section SortedFacts.
Context {A : Type} (leb : A -> A -> bool).
Hypothesis leb_total : forall a b, leb a b = true \/ leb b a = true.
Hypothesis leb_trans :
  forall a b c, leb a b = true -> leb b c = true -> leb a c = true.

Lemma insert_sorted_sorted (x : A) (l : list A) :
  StronglySorted (fun a b => leb a b = true) l ->
  StronglySorted (fun a b => leb a b = true) (insert_sorted leb x l).
Proof.
  induction 1 as [|y l Hl IH Hy]; cbn [insert_sorted].
  - repeat constructor.
  - destruct (leb x y) eqn:E.
    + constructor; [now constructor|].
      constructor; [exact E|].
      eapply Forall_impl; [|exact Hy]. intros z Hz. now apply (leb_trans x y z).
    + constructor; [exact IH|].
      rewrite insert_sorted_perm. constructor; [|exact Hy].
      destruct (leb_total x y) as [H|H]; [congruence | exact H].
Qed.

Lemma sort_with_sorted (l : list A) :
  StronglySorted (fun a b => leb a b = true) (sort_with leb l).
Proof.
  induction l as [|x l IH]; cbn [sort_with].
  - constructor.
  - now apply insert_sorted_sorted.
Qed.
End SortedFacts.

Lemma StronglySorted_impl_in {A} (R R' : A -> A -> Prop) (l : list A) :
  (forall a b, In a l -> In b l -> R a b -> R' a b) ->
  StronglySorted R l -> StronglySorted R' l.
Proof.
  intros H S. induction S as [|a l S IH Ha]; [constructor|].
  constructor.
  - apply IH. intros x y Hx Hy. apply H; now right.
  - rewrite Forall_forall in *. intros b Hb.
    apply H; [now left | now right | now apply Ha].
Qed.

Lemma string_leb_iff (a b : string) :
  String.leb a b = true <-> a = b \/ OrderedTypeEx.String_as_OT.lt a b.
Proof.
  unfold String.leb. destruct (String.compare a b) eqn:E.
  - apply OrderedTypeEx.String_as_OT.cmp_eq in E. tauto.
  - apply OrderedTypeEx.String_as_OT.cmp_lt in E. tauto.
  - split; [discriminate|]. intros [H|H].
    + apply OrderedTypeEx.String_as_OT.cmp_eq in H.
      unfold OrderedTypeEx.String_as_OT.cmp in H. congruence.
    + apply OrderedTypeEx.String_as_OT.cmp_lt in H.
      unfold OrderedTypeEx.String_as_OT.cmp in H. congruence.
Qed.

Lemma string_leb_trans (a b c : string) :
  String.leb a b = true -> String.leb b c = true -> String.leb a c = true.
Proof.
  rewrite !string_leb_iff. intros [->|H1] [->|H2]; auto.
  right. now apply (OrderedTypeEx.String_as_OT.lt_trans a b c).
Qed.

Lemma string_ltb_of_leb (a b : string) :
  String.leb a b = true -> a <> b -> String.ltb a b = true.
Proof.
  unfold String.leb, String.ltb. destruct (String.compare a b) eqn:E;
    try congruence.
  apply String.compare_eq_iff in E. congruence.
Qed.

Lemma sorted_nodup_strict (l : list string) :
  StronglySorted (fun a b => String.leb a b = true) l -> NoDup l ->
  StronglySorted (fun a b => String.ltb a b = true) l.
Proof.
  induction 1 as [|a l S IH Ha]; intros Hnd; [constructor|].
  inversion Hnd as [|? ? Hnotin Hnd']; subst.
  constructor; [now apply IH|].
  rewrite Forall_forall in *. intros b Hb.
  apply string_ltb_of_leb; [now apply Ha|]. intros ->. contradiction.
Qed.

Lemma groupby_categories_ascending {R} (key : R -> option string)
    (value : R -> Z) (rows : list R) :
  StronglySorted (fun a b => String.ltb a b = true)
                 (map category (groupby_mean key value rows)).
Proof.
  apply sorted_nodup_strict.
  - rewrite groupby_mean_categories.
    apply sort_with_sorted; [apply String.leb_total | apply string_leb_trans].
  - apply groupby_mean_NoDup.
Qed.

(** X13: the rows of a grouping by gender, education level, smoking
    status or blood-pressure category come in strictly ascending order of
    their labels (the order of the characters), whatever the order of the
    rows of the table. *)
Theorem grouping_rows_ascending (key : Row -> option string)
    (fd : list Row) :
  StronglySorted (fun a b => String.ltb a b = true)
                 (map category (rate_by_category key fd)).
Proof. unfold rate_by_category. apply groupby_categories_ascending. Qed.

(** X14: on a loaded table the smoking-status aggregate lists "Current
    Smoker" before "Non-Smoker", each exactly when a filtered row has that
    status, and nothing else. *)
Theorem smoking_status_rows (csv : list Subject)
    (gender_options : list (option string)) (age_range : Z * Z) :
  let fd := filtered_data (load_data csv) gender_options age_range in
  map category (chd_rate_smoke fd)
  = filter (present (fun r : Row => Some (Smoking_Status r)) fd)
           ["Current Smoker"; "Non-Smoker"].
Proof.
  intros fd. set (cats := ["Current Smoker"; "Non-Smoker"]).
  set (status := fun r : Row => Some (Smoking_Status r)).
  assert (Hin : forall x, In x (map category (chd_rate_smoke fd)) <->
                          present status fd x = true).
  { intros x. unfold present.
    rewrite <- (groupby_categories_present status
                  (fun r : Row => TenYearCHD r) fd x).
    rewrite existsb_exists. split.
    - intros H. exists x. split; [exact H | apply String.eqb_refl].
    - intros [y [Hy E]]. apply String.eqb_eq in E. now subst. }
  assert (Hcats : forall x, present status fd x = true -> In x cats).
  { intros x H. unfold present in H. apply existsb_exists in H.
    destruct H as [r [Hr E]]. apply label_eqb_eq in E. unfold status in E.
    rewrite (filtered_loaded_status csv gender_options age_range r Hr) in E.
    inversion E. unfold smoking_status, cats.
    destruct (currentSmoker r =? 1); simpl; auto. }
  apply (strict_sorted_unique cats).
  - apply (StronglySorted_impl_in (fun a b => String.ltb a b = true)).
    + intros a b Ha Hb Hlt. apply Hin, Hcats in Ha. apply Hin, Hcats in Hb.
      destruct Ha as [<-|[<-|[]]], Hb as [<-|[<-|[]]];
        first [discriminate Hlt | vm_compute; lia].
    + apply groupby_categories_ascending.
  - apply filter_strongly_sorted. unfold cats.
    repeat (apply SSorted_cons;
            [|repeat (apply Forall_cons; [vm_compute; lia|]); apply Forall_nil]).
    apply SSorted_nil.
  - intros x. rewrite Hin, filter_In. split; [|tauto].
    intros H. split; [now apply Hcats | exact H].
Qed.

(* ================================================================== *)
(** ** Groups and rows *)
(* ================================================================== *)

Lemma list_sum_map_add {A} (f g : A -> nat) (ks : list A) :
  list_sum (map (fun k => f k + g k)%nat ks)
  = (list_sum (map f ks) + list_sum (map g ks))%nat.
Proof.
  unfold list_sum. induction ks as [|k ks IH]; cbn [map fold_right];
    [reflexivity | rewrite IH; lia].
Qed.

Lemma list_sum_cons (x : nat) (l : list nat) :
  list_sum (x :: l) = (x + list_sum l)%nat.
Proof. reflexivity. Qed.

Lemma hit_count (ks : list string) (c : option string) :
  NoDup ks ->
  list_sum (map (fun k => if label_eqb c (Some k) then 1 else 0)%nat ks)
  = match c with
    | Some k0 => if in_dec string_dec k0 ks then 1%nat else 0%nat
    | None => 0%nat
    end.
Proof.
  induction 1 as [|k ks Hk Hnd IH]; cbn [map].
  - destruct c; reflexivity.
  - rewrite list_sum_cons, IH. destruct c as [k0|]; [|reflexivity]. cbn [label_eqb].
    destruct (String.eqb_spec k0 k) as [->|N].
    + destruct (in_dec string_dec k (k :: ks)) as [_|H];
        [|exfalso; apply H; now left].
      destruct (in_dec string_dec k ks); [contradiction | reflexivity].
    + destruct (in_dec string_dec k0 ks) as [H|H],
               (in_dec string_dec k0 (k :: ks)) as [H'|H']; try reflexivity.
      * exfalso. apply H'. now right.
      * exfalso. destruct H' as [E|E]; [congruence | contradiction].
Qed.

Lemma group_sizes_sum {R} (key : R -> option string) (ks : list string)
    (rows : list R) :
  NoDup ks ->
  (forall r k, In r rows -> key r = Some k -> In k ks) ->
  list_sum (map (fun k => List.length (group_rows key k rows)) ks)
  = List.length (filter (labelled key) rows).
Proof.
  intros Hnd. induction rows as [|r rows IH]; intros Hks.
  - cbn. induction ks; [reflexivity | cbn; now apply IHks; inversion Hnd].
  - rewrite (map_ext _ (fun k => (if label_eqb (key r) (Some k) then 1 else 0)
                                 + List.length (group_rows key k rows))%nat).
    2:{ intros k. unfold group_rows. cbn [filter].
        destruct (label_eqb (key r) (Some k)); reflexivity. }
    rewrite list_sum_map_add, (hit_count ks (key r) Hnd).
    rewrite IH by (intros r' k Hr'; apply Hks; now right).
    cbn [filter]. unfold labelled at 2.
    destruct (key r) as [k0|] eqn:E; [|reflexivity].
    destruct (in_dec string_dec k0 ks) as [_|N]; [reflexivity|].
    exfalso. apply N. apply (Hks r k0); [now left | exact E].
Qed.

Lemma group_rows_filter {R} (key : R -> option string) (keep : R -> bool)
    (k : string) (rows : list R) :
  filter keep (group_rows key k rows) = group_rows key k (filter keep rows).
Proof.
  unfold group_rows. induction rows as [|r rows IH]; [reflexivity|].
  cbn [filter].
  destruct (label_eqb (key r) (Some k)) eqn:E, (keep r) eqn:K;
    cbn [filter]; rewrite ?E, ?K; rewrite ?IH; reflexivity.
Qed.

(** X15: the groups of an aggregate split the filtered rows that carry a
    label: their sizes add up to the number of those rows, and their
    numbers of rows with [TenYearCHD = 1] add up to the number of labelled
    rows of the risk subset.  A row with a missing label is in no group. *)
Theorem groups_split_the_labelled_rows (key : Row -> option string)
    (fd : list Row) :
  list_sum (map (fun a => List.length (group_rows key (category a) fd))
                (rate_by_category key fd))
  = List.length (filter (labelled key) fd) /\
  list_sum (map (fun a => List.length
                            (filter (fun r : Row => TenYearCHD r =? 1)
                                    (group_rows key (category a) fd)))
                (rate_by_category key fd))
  = List.length (filter (labelled key) (risk_data fd)) /\
  forall (r : Row) (c : string),
    key r = None -> ~ In r (group_rows key c fd).
Proof.
  assert (Hnd := groupby_mean_NoDup key (fun r : Row => TenYearCHD r) fd).
  assert (Hks : forall r k, In r fd -> key r = Some k ->
                  In k (map category (rate_by_category key fd))).
  { intros r k Hr Hk. unfold rate_by_category.
    rewrite groupby_mean_categories. apply sort_with_In, nodup_In.
    apply present_keys_In. now exists r. }
  split; [|split].
  - rewrite <- (group_sizes_sum key _ fd Hnd Hks). now rewrite map_map.
  - unfold risk_data.
    rewrite <- (group_sizes_sum key (map category (rate_by_category key fd))).
    + rewrite map_map. f_equal. apply map_ext. intros a.
      now rewrite group_rows_filter.
    + exact Hnd.
    + intros r k Hr. apply filter_In in Hr. now apply Hks.
  - intros r c Hk Hr. apply group_rows_In in Hr. destruct Hr as [_ Hr].
    congruence.
Qed.

Lemma groups_split_the_labelled_rows_witness :
  ~ In (load_row (with_education None))
       (group_rows Education_Level "College"
                   [load_row (with_education None);
                    load_row (with_education (Some 4%Q))]).
Proof.
  apply (proj2 (proj2 (groups_split_the_labelled_rows
                         Education_Level
                         [load_row (with_education None);
                          load_row (with_education (Some 4%Q))]))).
  reflexivity.
Defined.

(* ================================================================== *)
(** ** Education colors *)
(* ================================================================== *)

Lemma geb_nan_last_total (a b : option Q) :
  geb_nan_last a b = true \/ geb_nan_last b a = true.
Proof.
  destruct a as [x|], b as [y|]; cbn; auto.
  rewrite !Qle_bool_iff. destruct (Qlt_le_dec x y); [right | left]; lra.
Qed.

Lemma geb_nan_last_trans (a b c : option Q) :
  geb_nan_last a b = true -> geb_nan_last b c = true ->
  geb_nan_last a c = true.
Proof.
  destruct a as [x|], b as [y|], c as [z|]; cbn; auto; try discriminate.
  rewrite !Qle_bool_iff. intros; lra.
Qed.

Lemma combine_columns {A B} (l1 : list A) (l2 : list B) :
  (List.length l1 <= List.length l2)%nat ->
  map fst (combine l1 l2) = l1 /\
  map snd (combine l1 l2) = firstn (List.length l1) l2.
Proof.
  revert l2. induction l1 as [|x l1 IH]; intros l2 H; [split; reflexivity|].
  destruct l2 as [|y l2]; [cbn in H; lia|].
  cbn in H. destruct (IH l2 ltac:(lia)) as [H1 H2].
  cbn. now rewrite H1, H2.
Qed.

Lemma firstn_incl {A} (n : nat) (l : list A) (x : A) :
  In x (firstn n l) -> In x l.
Proof.
  revert l. induction n as [|n IH]; intros l H; [destruct H|].
  destruct l as [|y l]; [destruct H|].
  destruct H as [H|H]; [now left | right; now apply IH].
Qed.

Lemma firstn_NoDup {A} (n : nat) (l : list A) :
  NoDup l -> NoDup (firstn n l).
Proof.
  revert l. induction n as [|n IH]; intros l H; [constructor|].
  destruct l as [|y l]; [constructor|].
  inversion H; subst. cbn. constructor; [|now apply IH].
  intros Hin. now apply firstn_incl in Hin.
Qed.

Lemma loaded_education_labels (csv : list Subject)
    (gender_options : list (option string)) (age_range : Z * Z) :
  incl (map category
          (chd_rate_edu_grouped
             (filtered_data (load_data csv) gender_options age_range)))
       edu_order.
Proof.
  intros l Hl. apply in_map_iff in Hl. destruct Hl as [a [<- Ha]].
  unfold chd_rate_edu_grouped, rate_by_category in Ha.
  apply groupby_mean_In in Ha. destruct Ha as [_ [r [Hr Hl]]].
  apply filtered_data_incl in Hr. unfold load_data in Hr.
  apply in_map_iff in Hr. destruct Hr as [s [<- _]].
  cbn [load_row Education_Level] in Hl.
  apply education_level_known in Hl. now apply known_In in Hl.
Qed.

(** X16: on a loaded table every education level of the aggregate gets
    one color and no level is left without one; the colors are the first
    entries of the palette, all different, and they follow the risk: the
    levels are taken in descending order of their rate, the darkest color
    first. *)
Theorem education_colors (csv : list Subject)
    (gender_options : list (option string)) (age_range : Z * Z) :
  let fd := filtered_data (load_data csv) gender_options age_range in
  map fst (color_map_edu fd) = map category (sorted_by_risk fd) /\
  Permutation (map fst (color_map_edu fd))
              (map category (chd_rate_edu_grouped fd)) /\
  map snd (color_map_edu fd)
  = firstn (List.length (chd_rate_edu_grouped fd)) CUSTOM_RED_PALETTE /\
  NoDup (map snd (color_map_edu fd)) /\
  StronglySorted
    (fun a b => geb_nan_last (CHD_Risk_pct a) (CHD_Risk_pct b) = true)
    (sorted_by_risk fd).
Proof.
  intros fd.
  assert (Hperm : Permutation (sorted_by_risk fd) (chd_rate_edu_grouped fd))
    by apply sort_with_perm.
  assert (Hlen : (List.length (map category (sorted_by_risk fd))
                  <= List.length CUSTOM_RED_PALETTE)%nat).
  { rewrite length_map, (Permutation_length Hperm), <- (length_map category).
    change (List.length CUSTOM_RED_PALETTE) with (List.length edu_order).
    apply NoDup_incl_length.
    - apply groupby_mean_NoDup.
    - apply loaded_education_labels. }
  destruct (combine_columns _ _ Hlen) as [Hfst Hsnd].
  fold (color_map_edu fd) in Hfst, Hsnd.
  rewrite length_map, (Permutation_length Hperm) in Hsnd.
  split; [exact Hfst|]. split; [|split; [exact Hsnd|split]].
  - rewrite Hfst. now apply Permutation_map.
  - rewrite Hsnd. apply firstn_NoDup. unfold CUSTOM_RED_PALETTE.
    repeat (constructor; [simpl; intuition discriminate|]). constructor.
  - unfold sorted_by_risk, sort_values_desc. apply sort_with_sorted.
    + intros a b. apply geb_nan_last_total.
    + intros a b c. apply geb_nan_last_trans.
Qed.
